(** * eArchiwum: archival integrity and provenance services

    A shallow embedding of the service layer of the archive
    (src/main/services, src/main/database/db.ts and the encryption
    service) together with the properties the specification states
    about it.

    The relational store is an external collaborator.  It is modelled
    as a record of tables; a statement sent to it either runs or raises,
    and which of the two happens is decided by a fault schedule carried
    by the world ([faults]), so that every path through the [try] /
    [catch] blocks of the services can be exercised.  Pool-level
    [query] takes a connection of its own and commits at once;
    [client.query] inside [withTransaction] is buffered until COMMIT.

    Of schema.sql the tables carry the columns the services read and
    write, the keys under which rows are found (primary keys, the
    unique [file_id] of the two metadata tables, the unique pair
    (file_id, version_number)) and the audit trigger on [files]; any
    other error of the store is a fault of the schedule.  Timestamps
    are instants in milliseconds, the clock and the source of UUIDs
    belong to the world, and the calls to the logger are left out.

    The primitives of the platform that the services call (AES-GCM,
    [JSON.parse], the XML builder) are parameters of the definitions
    that use them. *)

From Stdlib Require Import ZArith NArith Lia List Bool Ascii String Sorted.
From Stdlib Require Strings.Byte.
From Stdlib Require Import Init.Byte.
From stdpp Require Import base option list gmap strings pretty.

Local Open Scope string_scope.
Local Open Scope list_scope.
Local Open Scope Z_scope.

(* ===================================================================== *)
(** ** Outcomes of asynchronous calls *)
(* ===================================================================== *)

(** A promise either resolves to a value or rejects with an error
    message ([throw new Error(msg)]). *)
Inductive outcome (A : Type) : Type :=
| Ret (a : A)
| Throw (msg : string).
Arguments Ret {A} a.
Arguments Throw {A} msg.

Definition is_ret {A} (o : outcome A) : bool :=
  match o with Ret _ => true | Throw _ => false end.

(* ===================================================================== *)
(** ** Tables (schema.sql) *)
(* ===================================================================== *)

Module Db.

(** [users]: the lockout columns live on the user row. Timestamps are
    milliseconds since the epoch. *)
Record UserRow := mkUser {
  user_id : string;
  username : string;
  failed_login_attempts : Z;
  locked_until : option Z;
  lockout_reason : option string
}.

Record FileRow := mkFile {
  file_id : string;
  filename : string;
  file_path : string;
  file_hash : string;
  mime_type : string;
  file_size : Z;
  created_by : string;
  file_updated_at : Z;
  current_version : Z;
  is_accessible : bool;
  access_level : string;
  description : option string;
  a11y_description : option string;
  is_deleted : bool;
  deleted_at : option Z
}.

Record VersionRow := mkVersion {
  v_file_id : string;
  version_number : Z;
  v_file_hash : string;
  v_file_size : Z;
  v_created_by : string;
  change_summary : option string;
  change_previous_hash : string;
  change_diff_size : Z
}.

(** types/index.ts, [Partial<DublinCoreMetadata>]: every key may be
    undefined. *)
Record DublinCore := mkDC {
  dc_identifier : option string;
  dc_title : option string;
  dc_creator : option string;
  dc_subject : option string;
  dc_description : option string;
  dc_publisher : option string;
  dc_date : option Z;
  dc_type : option string;
  dc_format : option string;
  dc_language : option string;
  dc_rights : option string;
  dc_source : option string
}.

Record DcRow := mkDcRow {
  dcr_file_id : string;
  identifier : string;
  title : option string;
  creator : option string;
  subject : option string;
  dcr_description : option string;
  publisher : option string;
  date_created : Z;
  type : option string;
  format : option string;
  language : option string;
  rights : option string;
  source : option string;
  dc_xml : string;
  dcr_updated_at : Z
}.

Inductive EventType :=
| capture | creation | modification | access | migration | validation.

Record PremisEvent := mkEvent {
  eventIdentifier : string;
  eventType : EventType;
  eventDateTime : Z;
  eventDetail : string;
  linkingAgentIdentifier : string;
  linkingObjectIdentifier : string
}.

Record PremisMetadata := mkPremis {
  objectIdentifier : string;
  messageDigestAlgorithm : string;
  messageDigest : string;
  messageDigestValidation : Z;
  formatName : string;
  preservationLevel : string;
  events : list PremisEvent
}.

Record PremisRow := mkPremisRow {
  p_file_id : string;
  object_identifier : string;
  format_name : string;
  message_digest : string;
  message_digest_algorithm : string;
  preservation_level : string;
  premis_json : option PremisMetadata;
  p_updated_at : Z
}.

Inductive Action := CREATE | READ | UPDATE | DELETE | DOWNLOAD | SHARE | VALIDATE.
Inductive ResourceType := rt_file | rt_metadata | rt_user | rt_version.

(** The JSONB snapshots [previous_value] and [new_value]. *)
Inductive Payload :=
| PFile (row : FileRow)
| PVersion (version : Z).

(** [audit_log].  [details] is the column the fixity report selects;
    schema.sql does not declare it and the INSERT of [logAction] does
    not list it, so no row written by the services carries one. *)
Record AuditRow := mkAudit {
  a_user_id : option string;
  action : Action;
  resource_type : ResourceType;
  resource_id : string;
  previous_value : option Payload;
  new_value : option Payload;
  reason : option string;
  success : bool;
  error_message : option string;
  details : option (gmap string string);
  created_at : Z
}.

Record Tables := mkTables {
  users : list UserRow;
  files : gmap string FileRow;
  file_versions : list VersionRow;
  metadata_dublin_core : gmap string DcRow;
  metadata_premis : gmap string PremisRow;
  audit_log : list AuditRow
}.

Definition set_users (f : list UserRow -> list UserRow) (t : Tables) : Tables :=
  mkTables (f (users t)) (files t) (file_versions t)
           (metadata_dublin_core t) (metadata_premis t) (audit_log t).
Definition set_files (f : gmap string FileRow -> gmap string FileRow) (t : Tables) : Tables :=
  mkTables (users t) (f (files t)) (file_versions t)
           (metadata_dublin_core t) (metadata_premis t) (audit_log t).
Definition set_dublin_core (f : gmap string DcRow -> gmap string DcRow) (t : Tables) : Tables :=
  mkTables (users t) (files t) (file_versions t)
           (f (metadata_dublin_core t)) (metadata_premis t) (audit_log t).
Definition set_premis (f : gmap string PremisRow -> gmap string PremisRow) (t : Tables) : Tables :=
  mkTables (users t) (files t) (file_versions t)
           (metadata_dublin_core t) (f (metadata_premis t)) (audit_log t).
Definition set_audit_log (f : list AuditRow -> list AuditRow) (t : Tables) : Tables :=
  mkTables (users t) (files t) (file_versions t)
           (metadata_dublin_core t) (metadata_premis t) (f (audit_log t)).

Definition empty_tables : Tables := mkTables [] ∅ [] ∅ ∅ [].

(** A statement: what it returns (or the error the store raises for
    it) and the tables it leaves. *)
Definition Stmt (A : Type) : Type := Tables -> outcome A * Tables.

(** The process and its environment. *)
Record World := mkWorld {
  db : Tables;                         (* committed rows *)
  tx : option (list (Tables -> Tables)); (* writes of the open transaction *)
  faults : list bool;                  (* true: the next statement raises *)
  clock : Z;                           (* Date.now(), NOW() *)
  uuids : list string;                 (* gen_random_uuid(), crypto.randomUUID() *)
  disk : gmap string (Z * string)      (* path to (size, sha-256 of content) *)
}.

Definition with_db (t : Tables) (w : World) : World :=
  mkWorld t (tx w) (faults w) (clock w) (uuids w) (disk w).
Definition with_tx (x : option (list (Tables -> Tables))) (w : World) : World :=
  mkWorld (db w) x (faults w) (clock w) (uuids w) (disk w).
Definition with_faults (fs : list bool) (w : World) : World :=
  mkWorld (db w) (tx w) fs (clock w) (uuids w) (disk w).
Definition with_clock (c : Z) (w : World) : World :=
  mkWorld (db w) (tx w) (faults w) c (uuids w) (disk w).
Definition with_uuids (us : list string) (w : World) : World :=
  mkWorld (db w) (tx w) (faults w) (clock w) us (disk w).
Definition with_disk (d : gmap string (Z * string)) (w : World) : World :=
  mkWorld (db w) (tx w) (faults w) (clock w) (uuids w) d.

(** Computations of the services. *)
Definition M (A : Type) : Type := World -> outcome A * World.

Definition ret {A} (a : A) : M A := fun w => (Ret a, w).
Definition throw {A} (msg : string) : M A := fun w => (Throw msg, w).
Definition bind {A B} (m : M A) (k : A -> M B) : M B :=
  fun w => match m w with
           | (Ret a, w') => k a w'
           | (Throw e, w') => (Throw e, w')
           end.
(** [try { m } catch (error) { h error }] *)
Definition try_catch {A} (m : M A) (h : string -> M A) : M A :=
  fun w => match m w with
           | (Ret a, w') => (Ret a, w')
           | (Throw e, w') => h e w'
           end.

Declare Scope db_scope.
Delimit Scope db_scope with db.
Notation "x <- m ;; k" := (bind m (fun x => k))
  (at level 100, m at next level, right associativity) : db_scope.
Notation "m ;;; k" := (bind m (fun _ => k))
  (at level 100, right associativity) : db_scope.
Local Open Scope db_scope.

Definition Date_now : M Z := fun w => (Ret (clock w), w).

Definition randomUUID : M string := fun w =>
  match uuids w with
  | u :: us => (Ret u, with_uuids us w)
  | [] => (Ret "", w)
  end.

(** Whether the store raises for the next statement. *)
Definition next_fault (w : World) : bool * World :=
  match faults w with
  | b :: fs => (b, with_faults fs w)
  | [] => (false, w)
  end.

Definition store_error : string := "Database query error".

(** db.ts, [query]: a connection of its own from the pool; the
    statement is committed as soon as it has run, whether or not some
    other client has a transaction open. *)
Definition query {A} (s : Stmt A) : M A := fun w =>
  match next_fault w with
  | (true, w1) => (Throw store_error, w1)
  | (false, w1) =>
      match s (db w1) with
      | (Ret a, t) => (Ret a, with_db t w1)
      | (Throw e, _) => (Throw e, w1)
      end
  end.

(** What the open transaction sees: the committed rows with its own
    writes applied.  The log holds the latest write first. *)
Fixpoint replay (log : list (Tables -> Tables)) (t : Tables) : Tables :=
  match log with
  | [] => t
  | write :: earlier => write (replay earlier t)
  end.

(** [client.query] on the transaction's connection. *)
Definition client_query {A} (s : Stmt A) : M A := fun w =>
  match next_fault w with
  | (true, w1) => (Throw store_error, w1)
  | (false, w1) =>
      match tx w1 with
      | None =>
          match s (db w1) with
          | (Ret a, t) => (Ret a, with_db t w1)
          | (Throw e, _) => (Throw e, w1)
          end
      | Some log =>
          match s (replay log (db w1)) with
          | (Ret a, _) => (Ret a, with_tx (Some ((fun t => snd (s t)) :: log)) w1)
          | (Throw e, _) => (Throw e, w1)
          end
      end
  end.

Definition BEGIN : M unit := fun w =>
  match next_fault w with
  | (true, w1) => (Throw store_error, w1)
  | (false, w1) => (Ret tt, with_tx (Some []) w1)
  end.

Definition COMMIT : M unit := fun w =>
  match next_fault w with
  | (true, w1) => (Throw store_error, w1)
  | (false, w1) =>
      match tx w1 with
      | Some log => (Ret tt, with_tx None (with_db (replay log (db w1)) w1))
      | None => (Ret tt, w1)
      end
  end.

Definition ROLLBACK : M unit := fun w =>
  match next_fault w with
  | (true, w1) => (Throw store_error, with_tx None w1)
  | (false, w1) => (Ret tt, with_tx None w1)
  end.

(** db.ts, [withTransaction].  [client.release()] hands the connection
    back; a transaction still open on it is discarded. *)
Definition withTransaction {A} (callback : M A) : M A :=
  try_catch
    (BEGIN ;;;
     result <- callback ;;
     COMMIT ;;;
     ret result)
    (fun error => ROLLBACK ;;; throw error).

(** [fs.stat(path)]: the size of the file, or ENOENT. *)
Definition fs_stat (path : string) : M Z := fun w =>
  match disk w !! path with
  | Some (size, _) => (Ret size, w)
  | None => (Throw "ENOENT: no such file or directory", w)
  end.

(** The faults consumed between two worlds of one run. *)
Definition consumed (w w' : World) : list bool :=
  take (length (faults w) - length (faults w')) (faults w).

End Db.


(* ===================================================================== *)
(** ** services/accountLockout.ts *)
(* ===================================================================== *)

Module AccountLockoutService.
Import Db.
Local Open Scope db_scope.

Definition LOCKOUT_THRESHOLD : Z := 5.
Definition LOCKOUT_DURATION_MS : Z := 15 * 60 * 1000.

Definition lockout_message : string :=
  "Brute-force protection: too many failed login attempts".

Definition by_username (name : string) (r : UserRow) : bool :=
  String.eqb (username r) name.
Definition by_id (uid : string) (r : UserRow) : bool :=
  String.eqb (user_id r) uid.

(** SELECT ... FROM users WHERE <cond> *)
Definition select_users (cond : UserRow -> bool) : Stmt (list UserRow) :=
  fun t => (Ret (List.filter cond (users t)), t).

Definition set_lockout (attempts : Z) (until : option Z) (why : option string)
    (r : UserRow) : UserRow :=
  mkUser (user_id r) (username r) attempts until why.

(** UPDATE users SET failed_login_attempts = .., locked_until = ..,
    lockout_reason = .. WHERE <cond> *)
Definition update_lockout (cond : UserRow -> bool)
    (attempts : Z) (until : option Z) (why : option string) : Stmt unit :=
  fun t =>
    (Ret tt,
     set_users (List.map (fun r => if cond r then set_lockout attempts until why r else r)) t).

Definition recordFailedAttempt (name : string) : M unit :=
  try_catch
    (userResult <- query (select_users (by_username name)) ;;
     match userResult with
     | [] => ret tt
     | user :: _ =>
         let userId := user_id user in
         current <- query (select_users (by_id userId)) ;;
         match current with
         | [] => ret tt
         | record :: _ =>
             now <- Date_now ;;
             let currentAttempts := failed_login_attempts record in
             let expired :=
               match locked_until record with
               | Some lockedUntilTime => now >? lockedUntilTime
               | None => false
               end in
             if expired then
               query (update_lockout (by_id userId) 1 None None)
             else
               let newAttempts := currentAttempts + 1 in
               let locked := newAttempts >=? LOCKOUT_THRESHOLD in
               let lockedUntil :=
                 if locked then Some (now + LOCKOUT_DURATION_MS) else None in
               let lockoutReason :=
                 if locked then Some lockout_message else None in
               query (update_lockout (by_id userId) newAttempts lockedUntil lockoutReason)
         end
     end)
    (fun _ => ret tt).

Definition isAccountLocked (name : string) : M bool :=
  try_catch
    (userResult <- query (select_users (by_username name)) ;;
     match userResult with
     | [] => ret false
     | record :: _ =>
         match locked_until record with
         | None => ret false
         | Some lockedUntil =>
             now <- Date_now ;;
             if now <? lockedUntil then ret true
             else
               query (update_lockout (by_username name) 0 None None) ;;;
               ret false
         end
     end)
    (fun _ => ret false).

Record LockoutInfo := mkLockoutInfo {
  isLocked : bool;
  failedAttempts : Z;
  lockedUntil : option Z;
  lockoutReason : option string;
  unlocksAt : option Z
}.

Definition getLockoutInfo (name : string) : M (option LockoutInfo) :=
  try_catch
    (result <- query (select_users (by_username name)) ;;
     match result with
     | [] => ret None
     | record :: _ =>
         now <- Date_now ;;
         let locked :=
           match locked_until record with
           | Some t => now <? t
           | None => false
           end in
         (if negb locked && bool_decide (is_Some (locked_until record))
          then query (update_lockout (by_username name) 0 None None)
          else ret tt) ;;;
         ret (Some (mkLockoutInfo
                      (locked && bool_decide (is_Some (locked_until record)))
                      (failed_login_attempts record)
                      (locked_until record)
                      (lockout_reason record)
                      (if locked then locked_until record else None)))
     end)
    (fun _ => ret None).

Definition clearFailedAttempts (name : string) : M unit :=
  try_catch
    (userResult <- query (select_users (by_username name)) ;;
     match userResult with
     | [] => ret tt
     | user :: _ => query (update_lockout (by_id (user_id user)) 0 None None)
     end)
    (fun _ => ret tt).

Definition unlockAccount (userId : string) : M unit :=
  try_catch
    (query (update_lockout (by_id userId) 0 None None))
    (fun error => throw error).




End AccountLockoutService.


(* ===================================================================== *)
(** ** services/audit.ts *)
(* ===================================================================== *)

Module AuditService.
Import Db.
Local Open Scope db_scope.

Record LogOptions := mkOptions {
  previousValue : option Payload;
  newValue : option Payload;
  opt_reason : option string;
  opt_success : option bool;
  errorMessage : option string
}.

Definition no_options : LogOptions := mkOptions None None None None None.

(** INSERT INTO audit_log (...) VALUES (...) RETURNING * *)
Definition insert_audit (row : AuditRow) : Stmt AuditRow :=
  fun t => (Ret row, set_audit_log (fun l => l ++ [row]) t).

Definition logAction (userId : option string) (act : Action)
    (resourceType : ResourceType) (resourceId : string)
    (options : LogOptions) : M AuditRow :=
  now <- Date_now ;;
  query (insert_audit
           (mkAudit userId act resourceType resourceId
              (previousValue options)
              (newValue options)
              (opt_reason options)
              (negb (bool_decide (opt_success options = Some false)))
              (errorMessage options)
              None
              now)).

End AuditService.


(* ===================================================================== *)
(** ** services/metadata.ts *)
(* ===================================================================== *)

Module MetadataService.
Import Db.
Local Open Scope db_scope.

(** [a || b] on strings: the empty string and undefined are falsy. *)
Definition or_else (a : option string) (b : string) : string :=
  match a with
  | Some s => if String.eqb s "" then b else s
  | None => b
  end.

(** [COALESCE($n, column)] *)
Definition COALESCE {A} (param : option A) (column : option A) : option A :=
  match param with
  | Some v => Some v
  | None => column
  end.

Definition no_dublin_core : DublinCore :=
  mkDC None None None None None None None None None None None None.

Section WithXmlBuilder.

(** [xmlBuilder.buildObject] of xml2js, applied to the RDF wrapper of
    the given fields: the serializer is a library of the platform. *)
Variable buildObject : DublinCore -> string.

Definition buildDublinCoreXML (metadata : DublinCore) : string :=
  buildObject metadata.

Definition insert_dublin_core (row : DcRow) : Stmt unit :=
  fun t =>
    match metadata_dublin_core t !! dcr_file_id row with
    | Some _ => (Throw "duplicate key value violates unique constraint", t)
    | None => (Ret tt, set_dublin_core (insert (dcr_file_id row) row) t)
    end.

Definition createDublinCoreMetadata (fileId : string) (metadata : DublinCore)
    : M DublinCore :=
  now <- Date_now ;;
  let defaultMetadata :=
    mkDC (Some fileId)
         (Some (or_else (dc_title metadata) "Untitled"))
         (Some (or_else (dc_creator metadata) "Unknown"))
         (dc_subject metadata)
         (dc_description metadata)
         (dc_publisher metadata)
         (Some now)
         (Some (or_else (dc_type metadata) "document"))
         (Some (or_else (dc_format metadata) "application/octet-stream"))
         (Some (or_else (dc_language metadata) "pl"))
         (Some (or_else (dc_rights metadata) "Copyright"))
         (dc_source metadata) in
  let dcXml := buildDublinCoreXML defaultMetadata in
  query (insert_dublin_core
           (mkDcRow fileId fileId
              (dc_title defaultMetadata)
              (dc_creator defaultMetadata)
              (dc_subject defaultMetadata)
              (dc_description defaultMetadata)
              (dc_publisher defaultMetadata)
              now
              (dc_type defaultMetadata)
              (dc_format defaultMetadata)
              (dc_language defaultMetadata)
              (dc_rights defaultMetadata)
              (dc_source defaultMetadata)
              dcXml
              now)) ;;;
  ret defaultMetadata.

(** SELECT dc_xml FROM metadata_dublin_core WHERE file_id = $1 *)
Definition select_dc_xml (fileId : string) : Stmt (list string) :=
  fun t =>
    (Ret (match metadata_dublin_core t !! fileId with
          | Some row => [dc_xml row]
          | None => []
          end), t).

(** The UPDATE of [updateDublinCoreMetadata], row by row. *)
Definition coalesce_row (updates : DublinCore) (dcXml : string) (now : Z)
    (row : DcRow) : DcRow :=
  mkDcRow (dcr_file_id row) (identifier row)
    (COALESCE (dc_title updates) (title row))
    (COALESCE (dc_creator updates) (creator row))
    (COALESCE (dc_subject updates) (subject row))
    (COALESCE (dc_description updates) (dcr_description row))
    (COALESCE (dc_publisher updates) (publisher row))
    (date_created row)
    (COALESCE (dc_type updates) (type row))
    (format row)
    (COALESCE (dc_language updates) (language row))
    (COALESCE (dc_rights updates) (rights row))
    (source row)
    dcXml
    now.

Definition update_dublin_core (fileId : string) (updates : DublinCore)
    (dcXml : string) (now : Z) : Stmt unit :=
  fun t => (Ret tt, set_dublin_core (alter (coalesce_row updates dcXml now) fileId) t).

Definition updateDublinCoreMetadata (fileId : string) (updates : DublinCore)
    : M DublinCore :=
  result <- query (select_dc_xml fileId) ;;
  match result with
  | [] => throw "Metadata not found"
  | _ :: _ =>
      let dcXml := buildDublinCoreXML updates in
      now <- Date_now ;;
      query (update_dublin_core fileId updates dcXml now) ;;;
      ret updates
  end.

End WithXmlBuilder.

Definition insert_premis (row : PremisRow) : Stmt unit :=
  fun t =>
    match metadata_premis t !! p_file_id row with
    | Some _ => (Throw "duplicate key value violates unique constraint", t)
    | None => (Ret tt, set_premis (insert (p_file_id row) row) t)
    end.

Definition createPremisMetadata (fileId fileHash mimeType : string)
    : M PremisMetadata :=
  now <- Date_now ;;
  eventId <- randomUUID ;;
  let premisData :=
    mkPremis fileId "SHA-256" fileHash now mimeType "fulPreservation"
      [mkEvent eventId creation now "File added to archive" "system" fileId] in
  query (insert_premis
           (mkPremisRow fileId fileId mimeType fileHash "SHA-256"
              "fulPreservation" (Some premisData) now)) ;;;
  ret premisData.

(** SELECT <columns> FROM metadata_premis WHERE file_id = $1 *)
Definition select_premis (fileId : string) : Stmt (list PremisRow) :=
  fun t =>
    (Ret (match metadata_premis t !! fileId with
          | Some row => [row]
          | None => []
          end), t).

Definition set_premis_json (json : PremisMetadata) (now : Z) (row : PremisRow)
    : PremisRow :=
  mkPremisRow (p_file_id row) (object_identifier row) (format_name row)
    (message_digest row) (message_digest_algorithm row)
    (preservation_level row) (Some json) now.

(** UPDATE metadata_premis SET premis_json = $1, updated_at = NOW()
    WHERE file_id = $2 *)
Definition update_premis_json (fileId : string) (json : PremisMetadata) (now : Z)
    : Stmt unit :=
  fun t => (Ret tt, set_premis (alter (set_premis_json json now) fileId) t).

(** [premisData['premis:events'].push(newEvent)] *)
Definition push_event (e : PremisEvent) (p : PremisMetadata) : PremisMetadata :=
  mkPremis (objectIdentifier p) (messageDigestAlgorithm p) (messageDigest p)
    (messageDigestValidation p) (formatName p) (preservationLevel p)
    (events p ++ [e]).

Definition recordPremisEvent (fileId : string) (ty : EventType)
    (detail : string) (userId : string) : M unit :=
  result <- query (select_premis fileId) ;;
  match result with
  | [] => throw "PREMIS metadata not found"
  | row :: _ =>
      eventId <- randomUUID ;;
      now <- Date_now ;;
      let newEvent := mkEvent eventId ty now detail userId fileId in
      match premis_json row with
      | None => throw "Cannot read properties of null (reading 'premis:events')"
      | Some premisData =>
          query (update_premis_json fileId (push_event newEvent premisData) now)
      end
  end.

Definition fixity_detail (isValid : bool) (storedHash currentHash : string) : string :=
  "Fixity check " +:+ (if isValid then "passed" else "FAILED") +:+
  " - stored: " +:+ storedHash +:+ ", current: " +:+ currentHash.

Definition validateFixity (fileId currentHash : string) : M bool :=
  result <- query (select_premis fileId) ;;
  match result with
  | [] => throw "PREMIS metadata not found"
  | row :: _ =>
      let storedHash := message_digest row in
      let isValid := String.eqb storedHash currentHash in
      recordPremisEvent fileId validation
        (fixity_detail isValid storedHash currentHash) "system" ;;;
      ret isValid
  end.

(** The composite read view, as far as the properties below look at it. *)
Record ArchiveFile := mkArchiveFile {
  af_id : string;
  af_filename : string;
  filePath : string;
  fileHash : string;
  currentVersion : Z;
  premis_events : list PremisEvent;
  checksum : string;
  isAccessible : bool;
  accessLevel : string
}.

(** SELECT ... FROM files f LEFT JOIN metadata_dublin_core dc ...
    LEFT JOIN metadata_premis p ... WHERE f.id = $1 *)
Definition select_file_with_metadata (fileId : string)
    : Stmt (list (FileRow * option DcRow * option PremisRow)) :=
  fun t =>
    (Ret (match files t !! fileId with
          | Some f => [(f, metadata_dublin_core t !! fileId, metadata_premis t !! fileId)]
          | None => []
          end), t).

Definition getFileWithMetadata (fileId : string) : M (option ArchiveFile) :=
  result <- query (select_file_with_metadata fileId) ;;
  match result with
  | [] => ret None
  | (f, dc, p) :: _ =>
      ret (Some (mkArchiveFile
                   (file_id f) (filename f) (file_path f) (file_hash f)
                   (current_version f)
                   (match p ≫= premis_json with
                    | Some json => events json
                    | None => []
                    end)
                   (match p with
                    | Some row => or_else (Some (message_digest row)) (file_hash f)
                    | None => file_hash f
                    end)
                   true
                   (access_level f)))
  end.

End MetadataService.


(* ===================================================================== *)
(** ** services/hash.ts *)
(* ===================================================================== *)

Module HashService.
Import Db.

(** The SHA-256 of the bytes at [path], or the read error of the
    stream. *)
Definition calculateFileHashFromPath (path : string) : M string := fun w =>
  match disk w !! path with
  | Some (_, digest) => (Ret digest, w)
  | None => (Throw "ENOENT: no such file or directory", w)
  end.

End HashService.


(* ===================================================================== *)
(** ** services/files.ts *)
(* ===================================================================== *)

Module FileService.
Import Db.
Local Open Scope db_scope.

Record RegisterHints := mkHints {
  h_title : option string;
  h_description : option string;
  h_creator : option string;
  h_language : option string;
  h_accessLevel : option string
}.

(** [filePath.split('/').pop()] *)
Fixpoint last_segment (acc : string) (s : string) : string :=
  match s with
  | EmptyString => acc
  | String c rest =>
      if Ascii.eqb c "/"%char then last_segment "" rest
      else last_segment (acc +:+ String c "") rest
  end.

(** Trigger [log_files_change] of schema.sql: every INSERT or UPDATE on
    [files] leaves a ledger row, inside the statement's transaction. *)
Definition log_file_change (act : Action) (fileId : string)
    (old new : option FileRow) (now : Z) : AuditRow :=
  mkAudit None act rt_file fileId (PFile <$> old) (PFile <$> new)
    None true None None now.

(** INSERT INTO files (...) VALUES (...) RETURNING * *)
Definition insert_file (row : FileRow) (now : Z) : Stmt FileRow :=
  fun t =>
    match files t !! file_id row with
    | Some _ => (Throw "duplicate key value violates unique constraint", t)
    | None =>
        (Ret row,
         set_audit_log
           (fun l => l ++ [log_file_change CREATE (file_id row) None (Some row) now])
           (set_files (insert (file_id row) row) t))
    end.

(** UPDATE files SET ... WHERE id = $n *)
Definition update_file (fileId : string) (f : FileRow -> FileRow) (now : Z)
    : Stmt unit :=
  fun t =>
    match files t !! fileId with
    | Some old =>
        (Ret tt,
         set_audit_log
           (fun l => l ++ [log_file_change UPDATE fileId (Some old) (Some (f old)) now])
           (set_files (insert fileId (f old)) t))
    | None => (Ret tt, t)
    end.

(** SELECT ... FROM files WHERE id = $1 *)
Definition select_file (fileId : string) : Stmt (list FileRow) :=
  fun t =>
    (Ret (match files t !! fileId with Some f => [f] | None => [] end), t).



Definition hint {A} (f : RegisterHints -> option A) (m : option RegisterHints)
    : option A := m ≫= f.

Section WithXmlBuilder.
Variable buildObject : DublinCore -> string.

Definition registerFile (filePath fileHash mimeType createdBy : string)
    (metadata : option RegisterHints) : M FileRow :=
  let filename :=
    MetadataService.or_else (hint h_title metadata)
      (MetadataService.or_else (Some (last_segment "" filePath)) "unknown") in
  stats_size <- fs_stat filePath ;;
  withTransaction
    (fileId <- randomUUID ;;
     now <- Date_now ;;
     file <- client_query
       (insert_file
          (mkFile fileId filename filePath fileHash mimeType stats_size createdBy
             now 1 true
             (MetadataService.or_else (hint h_accessLevel metadata) "public")
             (hint h_description metadata)
             (hint h_description metadata)
             false None)
          now) ;;
     MetadataService.createDublinCoreMetadata buildObject (file_id file)
       (mkDC None
          (Some filename)
          (Some (MetadataService.or_else (hint h_creator metadata) "Unknown"))
          None
          (hint h_description metadata)
          None None None
          (Some mimeType)
          (Some (MetadataService.or_else (hint h_language metadata) "pl"))
          None None) ;;;
     MetadataService.createPremisMetadata (file_id file) fileHash mimeType ;;;
     AuditService.logAction (Some createdBy) CREATE rt_file (file_id file)
       (AuditService.mkOptions None (Some (PFile file))
          (Some "File registered in archive") None None) ;;;
     ret file).

End WithXmlBuilder.



Definition soft_delete (now : Z) (f : FileRow) : FileRow :=
  mkFile (file_id f) (filename f) (file_path f) (file_hash f) (mime_type f)
    (file_size f) (created_by f) now (current_version f) false (access_level f)
    (description f) (a11y_description f) true (Some now).

Definition undelete (now : Z) (f : FileRow) : FileRow :=
  mkFile (file_id f) (filename f) (file_path f) (file_hash f) (mime_type f)
    (file_size f) (created_by f) now (current_version f) true (access_level f)
    (description f) (a11y_description f) false None.

Definition deleteFile (fileId deletedBy : string) (why : option string) : M unit :=
  withTransaction
    (now <- Date_now ;;
     client_query (update_file fileId (soft_delete now) now) ;;;
     AuditService.logAction (Some deletedBy) DELETE rt_file fileId
       (AuditService.mkOptions None None
          (Some (MetadataService.or_else why "File moved to archive")) None None) ;;;
     ret tt).

Definition restoreFile (fileId : string) : M unit :=
  withTransaction
    (now <- Date_now ;;
     client_query (update_file fileId (undelete now) now)).

Definition getFile (fileId : string) (userId : option string)
    : M (option MetadataService.ArchiveFile) :=
  (match userId with
   | Some u =>
       if String.eqb u "" then ret tt
       else AuditService.logAction (Some u) READ rt_file fileId
              AuditService.no_options ;;; ret tt
   | None => ret tt
   end) ;;;
  MetadataService.getFileWithMetadata fileId.

(** One [createVersion] per request, one after the other; the version
    numbers that were handed out. *)
Record VersionRequest := mkRequest {
  rq_path : string;
  rq_hash : string;
  rq_by : string;
  rq_summary : option string
}.



(** *** Concurrent [createVersion] calls on one file

    Each call runs its statements on a connection of its own, between
    BEGIN and COMMIT, at the store's default isolation (read
    committed): a SELECT sees what is committed; an INSERT that meets a
    committed row with its (file_id, version_number) raises, and one
    that meets such a row of a transaction still open waits for it; an
    UPDATE waits for the row lock.  The calls are interleaved statement
    by statement. *)
Inductive Phase :=
| Start
| Selected (previousVersion : Z)   (* SELECT current_version ... *)
| Inserted (previousVersion : Z)   (* INSERT INTO file_versions ..., not committed *)
| Updated (previousVersion : Z)    (* UPDATE files ..., not committed *)
| Committed (newVersion : Z)
| RolledBack.

Record Shared := mkShared {
  committed_version : Z;        (* files.current_version *)
  committed_versions : list Z;  (* file_versions.version_number, in commit order *)
  calls : list Phase
}.

(** The version row a call has written and not yet committed. *)
Definition pending (p : Phase) : option Z :=
  match p with
  | Inserted v | Updated v => Some (v + 1)
  | _ => None
  end.

Definition holds_row_lock (p : Phase) : bool :=
  match p with Updated _ => true | _ => false end.

Definition in_flight (p : Phase) : bool :=
  match p with Selected _ | Inserted _ | Updated _ => true | _ => false end.

Inductive Event :=
| Select (i : nat)    (* call i runs its SELECT *)
| Insert (i : nat)    (* call i runs its INSERT *)
| Update (i : nat)    (* call i runs its UPDATE *)
| Raise (i : nat)     (* a statement of call i raises: ROLLBACK *)
| Commit (i : nat).   (* call i runs COMMIT *)

Definition set_call (i : nat) (p : Phase) (s : Shared) : Shared :=
  mkShared (committed_version s) (committed_versions s) (<[i := p]> (calls s)).

(** The state after the event, or nothing when the statement cannot
    run yet (the call is elsewhere in its body, or it waits). *)
Definition fire (e : Event) (s : Shared) : option Shared :=
  match e with
  | Select i =>
      match calls s !! i with
      | Some Start => Some (set_call i (Selected (committed_version s)) s)
      | _ => None
      end
  | Insert i =>
      match calls s !! i with
      | Some (Selected v) =>
          if existsb (Z.eqb (v + 1)) (committed_versions s)
          then Some (set_call i RolledBack s)
          else if existsb (fun p => bool_decide (pending p = Some (v + 1))) (calls s)
          then None
          else Some (set_call i (Inserted v) s)
      | _ => None
      end
  | Update i =>
      match calls s !! i with
      | Some (Inserted v) =>
          if existsb holds_row_lock (calls s) then None
          else Some (set_call i (Updated v) s)
      | _ => None
      end
  | Raise i =>
      match calls s !! i with
      | Some p => if in_flight p then Some (set_call i RolledBack s) else None
      | None => None
      end
  | Commit i =>
      match calls s !! i with
      | Some (Updated v) =>
          Some (mkShared (v + 1) (committed_versions s ++ [v + 1])
                  (<[i := Committed (v + 1)]> (calls s)))
      | _ => None
      end
  end.

(** A schedule; an event that cannot run is passed over. *)
Fixpoint run (schedule : list Event) (s : Shared) : Shared :=
  match schedule with
  | [] => s
  | e :: rest => run rest (default s (fire e s))
  end.

(** [n] calls on a file at version 1 with no version row yet. *)
Definition initial (n : nat) : Shared := mkShared 1 [] (replicate n Start).


(** *** Vocabulary of the properties *)

(** The flags of the row of a file: accessible, deleted. *)
Definition flags (w : World) (fileId : string) : option (bool * bool) :=
  (fun f => (is_accessible f, is_deleted f)) <$> files (db w) !! fileId.


(** Requests whose new content is on disk. *)
Definition on_disk (w : World) (rq : VersionRequest) : Prop :=
  is_Some (disk w !! rq_path rq).




End FileService.


(* ===================================================================== *)
(** ** services/fixity.ts *)
(* ===================================================================== *)

Module FixityService.
Import Db.
Local Open Scope db_scope.

Record Verification := mkVerification {
  vf_fileId : string;
  isValid : bool;
  error : option string
}.

Definition failure_message (stored current : string) : string :=
  "Fixity check failed - stored: " +:+ stored +:+ ", current: " +:+ current.

Definition verifyFile (fileId : string) : M Verification :=
  try_catch
    (result <- query (FileService.select_file fileId) ;;
     match result with
     | [] => ret (mkVerification fileId false (Some "File not found"))
     | file :: _ =>
         on_disk <- try_catch (fs_stat (file_path file) ;;; ret true)
                              (fun _ => ret false) ;;
         if negb on_disk
         then ret (mkVerification fileId false (Some "File does not exist on disk"))
         else
           currentHash <- HashService.calculateFileHashFromPath (file_path file) ;;
           let valid := String.eqb currentHash (file_hash file) in
           (if negb valid
            then AuditService.logAction None VALIDATE rt_file fileId
                   (AuditService.mkOptions None None None None
                      (Some (failure_message (file_hash file) currentHash))) ;;;
                 ret tt
            else ret tt) ;;;
           ret (mkVerification fileId valid None)
     end)
    (fun msg => ret (mkVerification fileId false (Some msg))).

Inductive Status := valid | invalid | unknown.

Record Check := mkCheck {
  timestamp : Z;
  check_isValid : bool;
  storedHash : string;
  currentHash : option string
}.

Record Report := mkReport {
  rp_fileId : string;
  lastChecked : option Z;
  status : Status;
  checks : list Check
}.

Definition is_validate (a : Action) : bool :=
  match a with VALIDATE => true | _ => false end.

(** ORDER BY created_at DESC *)
Fixpoint insert_desc (r : AuditRow) (l : list AuditRow) : list AuditRow :=
  match l with
  | [] => [r]
  | x :: xs =>
      if created_at x <? created_at r then r :: l else x :: insert_desc r xs
  end.

Definition order_by_created_at_desc (l : list AuditRow) : list AuditRow :=
  fold_right insert_desc [] l.

(** SELECT created_at, details FROM audit_log
    WHERE resource_id = $1 AND action = 'VALIDATE'
    ORDER BY created_at DESC LIMIT 20 *)
Definition select_validations (fileId : string) : Stmt (list AuditRow) :=
  fun t =>
    (Ret (take 20
            (order_by_created_at_desc
               (List.filter
                  (fun r => String.eqb (resource_id r) fileId && is_validate (action r))
                  (audit_log t)))), t).

(** [details?.key] *)
Definition detail (row : AuditRow) (key : string) : option string :=
  details row ≫= lookup key.

Definition check_of_row (row : AuditRow) : Check :=
  mkCheck (created_at row)
    (negb (bool_decide (detail row "severity" = Some "critical")))
    (MetadataService.or_else (detail row "storedHash") "")
    (detail row "currentHash").

Definition getFixityReport (fileId : string) : M Report :=
  try_catch
    (fileResult <- query (FileService.select_file fileId) ;;
     match fileResult with
     | [] => ret (mkReport fileId None unknown [])
     | _ :: _ =>
         auditResult <- query (select_validations fileId) ;;
         let checks := List.map check_of_row auditResult in
         let lastCheck := head checks in
         let status :=
           match lastCheck with
           | Some c => if check_isValid c then valid else invalid
           | None => unknown
           end in
         ret (mkReport fileId (timestamp <$> lastCheck) status checks)
     end)
    (fun err => throw err).


End FixityService.


(* ===================================================================== *)
(** ** The encryption service (AES-256-GCM over hex payloads) *)
(* ===================================================================== *)

Module EncryptionService.

(** *** Buffers and their hex encoding *)

Definition hex_digit (n : N) : ascii :=
  match n with
  | 0 => "0" | 1 => "1" | 2 => "2" | 3 => "3" | 4 => "4" | 5 => "5"
  | 6 => "6" | 7 => "7" | 8 => "8" | 9 => "9" | 10 => "a" | 11 => "b"
  | 12 => "c" | 13 => "d" | 14 => "e" | _ => "f"
  end%N%char.

Definition hex_value (c : ascii) : option N :=
  let n := N_of_ascii c in
  if ((48 <=? n) && (n <=? 57))%N then Some (n - 48)%N
  else if ((97 <=? n) && (n <=? 102))%N then Some (n - 87)%N
  else if ((65 <=? n) && (n <=? 70))%N then Some (n - 55)%N
  else None.

(** [buffer.toString('hex')] *)
Fixpoint to_hex (buffer : list byte) : string :=
  match buffer with
  | [] => ""
  | b :: rest =>
      String (hex_digit (Byte.to_N b / 16))
        (String (hex_digit (Byte.to_N b mod 16)) (to_hex rest))
  end.

(** [Buffer.from(text, 'hex')]: decoding stops at the first pair that
    is not two hex digits; a trailing odd character is dropped. *)
Fixpoint from_hex (text : string) : list byte :=
  match text with
  | String hi (String lo rest) =>
      match hex_value hi, hex_value lo with
      | Some h, Some l =>
          match Byte.of_N (16 * h + l) with
          | Some b => b :: from_hex rest
          | None => []
          end
      | _, _ => []
      end
  | _ => []
  end.

Fixpoint string_drop (n : nat) (s : string) : string :=
  match n, s with
  | O, _ => s
  | S n', String _ rest => string_drop n' rest
  | S _, EmptyString => EmptyString
  end.

Fixpoint string_take (n : nat) (s : string) : string :=
  match n, s with
  | O, _ => EmptyString
  | S n', String c rest => String c (string_take n' rest)
  | S _, EmptyString => EmptyString
  end.

(** [s.substring(start, stop)] for [start <= stop], and [s.substring(start)]. *)
Definition substring (start stop : nat) (s : string) : string :=
  string_take (stop - start) (string_drop start s).
Definition substring_from (start : nat) (s : string) : string :=
  string_drop start s.

(** A text is carried by its UTF-8 bytes. *)
Definition utf8_encode (text : string) : list byte := list_byte_of_string text.
Definition utf8_decode (bytes : list byte) : string := string_of_list_byte bytes.

(** *** The service *)

Record Service := mkService {
  ENCRYPTION_KEY : option string;      (* process.env.ENCRYPTION_KEY *)
  encryptionKey : option (list byte)   (* private static encryptionKey *)
}.

Definition placeholder_key : string := "your-32-byte-hex-key-change-in-production".

Definition initialize (svc : Service) : outcome unit * Service :=
  match ENCRYPTION_KEY svc with
  | None => (Throw "FATAL: ENCRYPTION_KEY is not set or is using the default placeholder.", svc)
  | Some keyHex =>
      if String.eqb keyHex "" || String.eqb keyHex placeholder_key
      then (Throw "FATAL: ENCRYPTION_KEY is not set or is using the default placeholder.", svc)
      else
        let key := from_hex keyHex in
        let svc' := mkService (ENCRYPTION_KEY svc) (Some key) in
        if (length key =? 32)%nat then (Ret tt, svc')
        else (Throw "FATAL: Invalid ENCRYPTION_KEY length.", svc')
  end.

Definition getKey (svc : Service) : outcome (list byte) * Service :=
  match encryptionKey svc with
  | Some key => (Ret key, svc)
  | None =>
      match initialize svc with
      | (Ret _, svc') =>
          match encryptionKey svc' with
          | Some key => (Ret key, svc')
          | None => (Throw "encryption key missing", svc')
          end
      | (Throw e, svc') => (Throw e, svc')
      end
  end.

Inductive JsValue :=
| JUndefined
| JNull
| JBool (b : bool)
| JNumber (n : Z)
| JString (s : string)
| JComposite (json : string).

Section Platform.

(** [crypto.createCipheriv('aes-256-gcm', key, iv)] followed by
    [update], [final] and [getAuthTag]: the ciphertext and the tag, or
    nothing when the library throws. *)
Variable gcm_encrypt : list byte -> list byte -> list byte -> option (list byte * list byte).

(** [crypto.createDecipheriv], [setAuthTag], [update] and [final]: the
    plaintext, or nothing when the library throws (a tag that does not
    verify, a malformed key, nonce or tag). *)
Variable gcm_decrypt : list byte -> list byte -> list byte -> list byte -> option (list byte).

(** [JSON.parse], nothing when it throws. *)
Variable JSON_parse : string -> option JsValue.

(** [iv] is what [crypto.randomBytes(16)] returned. *)
Definition encrypt (svc : Service) (iv : list byte) (plaintext : string)
    : outcome string * Service :=
  match getKey svc with
  | (Ret key, svc') =>
      match gcm_encrypt key iv (utf8_encode plaintext) with
      | Some (encrypted, authTag) =>
          (Ret (to_hex iv +:+ to_hex authTag +:+ to_hex encrypted), svc')
      | None => (Throw "Encryption failed", svc')
      end
  | (Throw _, svc') => (Throw "Encryption failed", svc')
  end.

Definition decryption_failed : string :=
  "Decryption failed - data may be corrupted or wrong key".

Definition decrypt (svc : Service) (ciphertext : string)
    : outcome string * Service :=
  match getKey svc with
  | (Ret key, svc') =>
      let iv := from_hex (substring 0 32 ciphertext) in
      let authTag := from_hex (substring 32 64 ciphertext) in
      let encrypted := substring_from 64 ciphertext in
      match gcm_decrypt key iv authTag (from_hex encrypted) with
      | Some decrypted => (Ret (utf8_decode decrypted), svc')
      | None => (Throw decryption_failed, svc')
      end
  | (Throw _, svc') => (Throw decryption_failed, svc')
  end.

(** One turn of the loop of [decryptObject]. *)
Definition decrypt_field (acc : gmap string JsValue * Service) (fieldKey : string)
    : gmap string JsValue * Service :=
  let (decrypted, svc) := acc in
  match decrypted !! fieldKey with
  | Some (JString value) =>
      match decrypt svc value with
      | (Ret decryptedValue, svc') =>
          match JSON_parse decryptedValue with
          | Some parsed => (<[fieldKey := parsed]> decrypted, svc')
          | None => (<[fieldKey := JString decryptedValue]> decrypted, svc')
          end
      | (Throw _, svc') => (<[fieldKey := JString value]> decrypted, svc')
      end
  | _ => acc
  end.

Definition decryptObject (svc : Service) (obj : gmap string JsValue)
    (fieldsToDecrypt : list string) : gmap string JsValue * Service :=
  fold_left decrypt_field fieldsToDecrypt (obj, svc).

(** The value of a field does not decrypt, whether or not the key has
    been loaded yet; a value that is not a string is not tried. *)
Definition undecryptable (svc : Service) (v : option JsValue) : Prop :=
  match v with
  | Some (JString value) =>
      is_ret (fst (decrypt svc value)) = false /\
      is_ret (fst (decrypt (snd (getKey svc)) value)) = false
  | _ => True
  end.

Definition state_of (svc s : Service) : Prop := s = svc \/ s = snd (getKey svc).

End Platform.

End EncryptionService.


(* ===================================================================== *)
(** ** A checksum cipher

    A stand-in for the platform's AES-GCM with the same interface, used
    to run the encryption service on concrete inputs: the "ciphertext"
    is the plaintext, and the tag makes the bytes of nonce, tag and
    ciphertext add up to a multiple of 256. *)
(* ===================================================================== *)

Module ChecksumCipher.

Definition byte_sum (l : list byte) : Z :=
  fold_right (fun b acc => Z.of_N (Byte.to_N b) + acc) 0 l.




Definition checksum_decrypt (key iv tag ct : list byte) : option (list byte) :=
  if (length tag =? 16)%nat && (byte_sum (iv ++ tag ++ ct) mod 256 =? 0)
  then Some ct else None.

(** [JSON.parse] on the texts of the examples, none of which is JSON. *)
Definition not_json (text : string) : option EncryptionService.JsValue := None.


End ChecksumCipher.


(* ===================================================================== *)
(** ** Scenarios

    The concrete users, files, records and stores on which the
    properties below are exercised. *)
(* ===================================================================== *)

Module Scenarios.
Import Db FileService EncryptionService.

Definition alice : Db.UserRow := Db.mkUser "u-1" "alice" 0 None None.

Definition alice_world : Db.World :=
  Db.mkWorld (Db.mkTables [alice] ∅ [] ∅ ∅ []) None [] 0 [] ∅.

(** The store is down when "alice" logs in. *)
Definition store_down_world : World := with_faults [true] alice_world.

Definition sample_premis : Db.PremisMetadata :=
  Db.mkPremis "f-1" "SHA-256" "abc123" 0 "text/plain" "fulPreservation"
    [Db.mkEvent "e-0" Db.creation 0 "File added to archive" "system" "f-1"].

Definition sample_premis_row : Db.PremisRow :=
  Db.mkPremisRow "f-1" "f-1" "text/plain" "abc123" "SHA-256" "fulPreservation"
    (Some sample_premis) 0.

Definition premis_world : Db.World :=
  Db.mkWorld (Db.mkTables [] ∅ [] ∅ {[ "f-1" := sample_premis_row ]} [])
    None [] 10 ["e-1"] ∅.

Definition catalogued_row (xml : string) : DcRow :=
  mkDcRow "f-1" "f-1" (Some "Annual report") (Some "Ada") None None None 0
    (Some "document") (Some "text/plain") (Some "pl") (Some "Copyright") None xml 0.

Definition catalogue_world (xml : string) : World :=
  mkWorld (mkTables [] ∅ [] {[ "f-1" := catalogued_row xml ]} ∅ []) None [] 50 [] ∅.

(** The update of the failing input: a new title and a new format. *)
Definition retitle : DublinCore :=
  mkDC None (Some "Annual report 2024") None None None None None None
       (Some "application/pdf") None None None.

(** A serializer for the examples: it writes the title and, when there
    is one, the creator. *)
Definition title_only (m : DublinCore) : string :=
  "<dc:title>" +:+ default "" (dc_title m) +:+ "</dc:title>" +:+
  match dc_creator m with
  | Some c => "<dc:creator>" +:+ c +:+ "</dc:creator>"
  | None => ""
  end.

Definition report_file : FileRow :=
  mkFile "f-1" "report.txt" "/srv/archive/report.txt" "abc123" "text/plain" 12
    "u-1" 0 1 true "public" None None false None.

Definition live_world : World :=
  mkWorld (mkTables [] {[ "f-1" := report_file ]} [] ∅ ∅ []) None [] 100 [] ∅.

(** The world in which the file has already been soft-deleted once. *)
Definition archived_world : World :=
  snd (deleteFile "f-1" "u-1" None live_world).

(** An upload waiting on disk. *)
Definition inbox : gmap string (Z * string) :=
  {[ "/srv/inbox/report.txt" := (12, "abc123") ]}.


Definition quiet_world : World :=
  mkWorld empty_tables None [] 100 ["f-1"; "e-1"] inbox.



(** The content on disk no longer has the registered digest. *)
Definition tampered_world : World :=
  mkWorld (mkTables [] {[ "f-1" := report_file ]} [] ∅ ∅ []) None [] 200 []
    {[ "/srv/archive/report.txt" := (12, "def456") ]}.

Definition sample_service : Service :=
  mkService
    (Some "000102030405060708090a0b0c0d0e0f101112131415161718191a1b1c1d1e1f")
    None.


Definition loaded_service : Service := snd (initialize sample_service).

(** A contact record: an identifier that is not a payload, a null
    phone number, and a name that was encrypted with the service. *)
Definition contact : gmap string JsValue :=
  {[ "email" := JString "not-a-payload";
     "phone" := JNull;
     "name" := JString "2a2a2a2a2a2a2a2a2a2a2a2a2a2a2a2a5a000000000000000000000000000000416461" ]}.

End Scenarios.

(* ===================================================================== *)
(** ** Statements with placeholders

    The services that build their SQL text at run time number the
    placeholders themselves.  A statement is the text and the values
    sent with it; [$k] stands for the [k]-th value. *)
(* ===================================================================== *)

Module Sql.

Inductive SqlValue :=
| VUndefined
| VText (s : string)
| VNumber (n : Z).

Record Statement := mkStatement {
  text : string;
  values : list SqlValue
}.

(** The value the store binds to [$k]. *)
Definition bound (vs : list SqlValue) (k : nat) : option SqlValue :=
  match k with
  | O => None
  | S i => vs !! i
  end.

Definition digit (c : ascii) : option nat :=
  let n := nat_of_ascii c in
  if ((48 <=? n) && (n <=? 57))%nat then Some (n - 48)%nat else None.

(** The numbers of the placeholders of a text, in the order in which
    they occur.  [cur] is the number being read, if the scan is inside
    a placeholder. *)
Fixpoint scan (cur : option nat) (s : string) : list nat :=
  let emit := match cur with
              | Some (S n) => [S n]
              | _ => []
              end in
  match s with
  | EmptyString => emit
  | String c rest =>
      match cur, digit c with
      | Some n, Some d => scan (Some (10 * n + d)%nat) rest
      | _, _ =>
          emit ++ scan (if Ascii.eqb c "$"%char then Some O else None) rest
      end
  end.

Definition placeholders (s : string) : list nat := scan None s.

(** What follows the first occurrence of [marker]. *)
Fixpoint after (marker : string) (s : string) : option string :=
  if String.prefix marker s
  then Some (EncryptionService.string_drop (String.length marker) s)
  else match s with
       | EmptyString => None
       | String _ rest => after marker rest
       end.

(** The placeholder that follows a keyword, as in [LIMIT $3]. *)
Definition placeholder_after (keyword : string) (s : string) : option nat :=
  after keyword s ≫= fun rest => head (placeholders rest).

End Sql.


(* ===================================================================== *)
(** ** services/audit.ts: reading the ledger *)
(* ===================================================================== *)

Module AuditReaders.
Import Db Sql.
Local Open Scope db_scope.

(** [LIMIT $n OFFSET $m]: the store refuses a negative number. *)
Definition LIMIT_OFFSET {A} (limit offset : Z) (rows : list A) : outcome (list A) :=
  if limit <? 0 then Throw "LIMIT must not be negative"
  else if offset <? 0 then Throw "OFFSET must not be negative"
  else Ret (take (Z.to_nat limit) (drop (Z.to_nat offset) rows)).

(** SELECT COUNT( * ) as count FROM audit_log WHERE <cond> *)
Definition count_audit (cond : AuditRow -> bool) : Stmt Z :=
  fun t => (Ret (Z.of_nat (length (List.filter cond (audit_log t)))), t).

(** SELECT * FROM audit_log WHERE <cond>
    ORDER BY created_at DESC LIMIT $n OFFSET $m *)
Definition select_audit (cond : AuditRow -> bool) (limit offset : Z)
    : Stmt (list AuditRow) :=
  fun t =>
    match LIMIT_OFFSET limit offset
            (FixityService.order_by_created_at_desc (List.filter cond (audit_log t)))
    with
    | Ret rows => (Ret rows, t)
    | Throw e => (Throw e, t)
    end.

Record Page := mkPage {
  entries : list AuditRow;
  total : Z
}.

(** The order of a page: the newer entry stands before the older. *)
Definition newest_first (a b : AuditRow) : Prop := created_at b <= created_at a.

Definition of_resource (resourceId : string) (r : AuditRow) : bool :=
  String.eqb (resource_id r) resourceId.

Definition of_user (userId : string) (r : AuditRow) : bool :=
  bool_decide (a_user_id r = Some userId).

Definition getResourceAuditLog (resourceId : string) (limit offset : option Z)
    : M Page :=
  let limit := default 100 limit in
  let offset := default 0 offset in
  countResult <- query (count_audit (of_resource resourceId)) ;;
  result <- query (select_audit (of_resource resourceId) limit offset) ;;
  ret (mkPage result countResult).

Definition getUserAuditLog (userId : string) (limit offset : option Z)
    : M Page :=
  let limit := default 100 limit in
  let offset := default 0 offset in
  countResult <- query (count_audit (of_user userId)) ;;
  result <- query (select_audit (of_user userId) limit offset) ;;
  ret (mkPage result countResult).

Definition getRecentAuditLog (limit : option Z) : M (list AuditRow) :=
  query (select_audit (fun _ => true) (default 100 limit) 0).

(** *** [searchAuditLog]: the statements it builds *)

Record Filters := mkFilters {
  f_action : option string;
  f_resourceType : option string;
  f_userId : option string;
  f_dateFrom : option string;
  f_dateTo : option string
}.

(** [if (value) { whereClause += ` AND <condition> $${params.length + 1}`;
    params.push(value) }] *)
Definition and_filter (condition : string) (value : option string)
    (acc : string * list SqlValue) : string * list SqlValue :=
  let (whereClause, params) := acc in
  match value with
  | Some v =>
      if String.eqb v "" then acc
      else (whereClause +:+ " AND " +:+ condition +:+ " $" +:+
              pretty (length params + 1)%nat,
            params ++ [VText v])
  | None => acc
  end.

Definition where_clause (filters : Filters) : string * list SqlValue :=
  let acc := ("WHERE 1=1", []) in
  let acc := and_filter "action =" (f_action filters) acc in
  let acc := and_filter "resource_type =" (f_resourceType filters) acc in
  let acc := and_filter "user_id =" (f_userId filters) acc in
  let acc := and_filter "created_at >=" (f_dateFrom filters) acc in
  let acc := and_filter "created_at <=" (f_dateTo filters) acc in
  acc.

Definition searchAuditLog_count (filters : Filters) : Statement :=
  let (whereClause, params) := where_clause filters in
  mkStatement ("SELECT COUNT(*) as count FROM audit_log " +:+ whereClause) params.

Definition searchAuditLog_select (filters : Filters) (limit offset : option Z)
    : Statement :=
  let limit := default 100 limit in
  let offset := default 0 offset in
  let (whereClause, params) := where_clause filters in
  mkStatement
    ("SELECT * FROM audit_log " +:+ whereClause +:+
     " ORDER BY created_at DESC LIMIT $" +:+ pretty (length params + 1)%nat +:+
     " OFFSET $" +:+ pretty (length params + 2)%nat)
    (params ++ [VNumber limit; VNumber offset]).

(** The filters that are set: [if (filters.x)] passes for a non-empty
    string. *)
Definition supplied (value : option string) : list SqlValue :=
  match value with
  | Some v => if String.eqb v "" then [] else [VText v]
  | None => []
  end.

End AuditReaders.


(* ===================================================================== *)
(** ** services/files.ts: versions of a file and the search statement *)
(* ===================================================================== *)

Module FileQueries.
Import Db Sql.
Local Open Scope db_scope.

(** ORDER BY <key> DESC *)
Fixpoint insert_by {A} (key : A -> Z) (r : A) (l : list A) : list A :=
  match l with
  | [] => [r]
  | x :: xs => if key x <? key r then r :: l else x :: insert_by key r xs
  end.

Definition order_by_desc {A} (key : A -> Z) (l : list A) : list A :=
  fold_right (insert_by key) [] l.

(** SELECT * FROM file_versions WHERE file_id = $1
    ORDER BY version_number DESC *)
Definition select_versions (fileId : string) : Stmt (list VersionRow) :=
  fun t =>
    (Ret (order_by_desc version_number
            (List.filter (fun v => String.eqb (v_file_id v) fileId) (file_versions t))),
     t).

Definition getVersions (fileId : string) : M (list VersionRow) :=
  query (select_versions fileId).

(** The table honours UNIQUE (file_id, version_number). *)
Definition unique_versions (t : Tables) : Prop :=
  NoDup (List.map (fun v => (v_file_id v, version_number v)) (file_versions t)).

(** *** [searchFiles]: the statement of the result page *)

Record SearchQuery := mkSearch {
  q : option string;
  category : option string;
  sq_creator : option string;
  dateFrom : option string;
  dateTo : option string;
  sq_accessLevel : option string;
  sq_limit : option Z;
  sq_offset : option Z;
  orderBy : option string;
  orderDir : option string
}.

Definition lower (c : ascii) : ascii :=
  let n := N_of_ascii c in
  if ((65 <=? n) && (n <=? 90))%N then ascii_of_N (n + 32) else c.

(** [s.toLowerCase()] on the letters A to Z. *)
Fixpoint toLowerCase (s : string) : string :=
  match s with
  | EmptyString => EmptyString
  | String c rest => String (lower c) (toLowerCase rest)
  end.

(** One filter of [searchFiles]: the clause, the value pushed, and the
    counter the code keeps beside the parameter list. *)
Definition and_filter (before suffix : string) (value : option string)
    (param : string -> string)
    (acc : string * list SqlValue * nat) : string * list SqlValue * nat :=
  let '(whereClause, params, paramIndex) := acc in
  match value with
  | Some v =>
      if String.eqb v "" then acc
      else (whereClause +:+ " AND " +:+ before +:+ " $" +:+ pretty paramIndex +:+ suffix,
            params ++ [VText (param v)],
            S paramIndex)
  | None => acc
  end.

Definition selectFields : string :=
  "f.*, COALESCE(AVG(r.rating), 0) as avg_rating, COUNT(DISTINCT c.id) as comment_count, ts_rank(to_tsvector('polish', COALESCE(f.filename || ' ' || f.description, f.filename)), plainto_tsquery('polish', $1)) as relevance".

Definition where_clause (sq : SearchQuery) : string * list SqlValue * nat :=
  let accessLevel := Some (default "public" (sq_accessLevel sq)) in
  let acc :=
    ("WHERE f.is_deleted = FALSE AND to_tsvector('polish', COALESCE(f.filename || ' ' || f.description, f.filename)) @@ plainto_tsquery('polish', $1)",
     [match q sq with Some s => VText s | None => VUndefined end],
     2%nat) in
  let acc := and_filter "f.access_level =" "" accessLevel id acc in
  let acc := and_filter "f.media_type =" "" (category sq) id acc in
  let acc := and_filter "dc.creator ILIKE" "" (sq_creator sq)
               (fun creator => "%" +:+ creator +:+ "%") acc in
  let acc := and_filter "f.created_at >=" "::timestamp" (dateFrom sq) id acc in
  let acc := and_filter "f.created_at <=" "::timestamp" (dateTo sq) id acc in
  acc.

Definition includes (l : list string) (s : string) : bool :=
  existsb (String.eqb s) l.

Definition orderByClause (sq : SearchQuery) : string :=
  let orderBy := default "relevance" (orderBy sq) in
  let orderDir := default "desc" (orderDir sq) in
  let finalOrderBy :=
    if includes ["relevance"; "date"; "title"] orderBy then orderBy else "relevance" in
  let finalOrderDir :=
    if includes ["asc"; "desc"] (toLowerCase orderDir)
    then toLowerCase orderDir else "desc" in
  if String.eqb finalOrderBy "relevance" then " ORDER BY relevance " +:+ finalOrderDir
  else if String.eqb finalOrderBy "date" then " ORDER BY f.created_at " +:+ finalOrderDir
  else if String.eqb finalOrderBy "title" then " ORDER BY f.filename " +:+ finalOrderDir
  else "".

Definition searchFiles_count (sq : SearchQuery) : Statement :=
  let '(whereClause, params, _) := where_clause sq in
  mkStatement
    ("SELECT COUNT(*) as count FROM files f LEFT JOIN metadata_dublin_core dc ON f.id = dc.file_id LEFT JOIN ratings r ON f.id = r.file_id LEFT JOIN comments c ON f.id = c.file_id " +:+
     whereClause)
    params.

Definition searchFiles_select (sq : SearchQuery) : Statement :=
  let limit := default 50 (sq_limit sq) in
  let offset := default 0 (sq_offset sq) in
  let '(whereClause, params, paramIndex) := where_clause sq in
  mkStatement
    ("SELECT " +:+ selectFields +:+
     " FROM files f LEFT JOIN metadata_dublin_core dc ON f.id = dc.file_id LEFT JOIN ratings r ON f.id = r.file_id LEFT JOIN comments c ON f.id = c.file_id AND c.is_deleted = FALSE " +:+
     whereClause +:+ " GROUP BY f.id, dc.id" +:+ orderByClause sq +:+
     " LIMIT $" +:+ pretty (paramIndex + 1)%nat +:+
     " OFFSET $" +:+ pretty (paramIndex + 2)%nat)
    (params ++ [VNumber limit; VNumber offset]).

(** The ORDER BY clauses the statement can carry. *)
Definition order_clauses : list string :=
  [ " ORDER BY relevance asc"; " ORDER BY relevance desc";
    " ORDER BY f.created_at asc"; " ORDER BY f.created_at desc";
    " ORDER BY f.filename asc"; " ORDER BY f.filename desc" ].

End FileQueries.


(* ===================================================================== *)
(** ** services/fixity.ts: the batch check *)
(* ===================================================================== *)

Module FixityBatch.
Import Db.
Local Open Scope db_scope.

(** SELECT id FROM files WHERE is_accessible = true
    ORDER BY updated_at DESC LIMIT $1 *)
Definition select_accessible (limit : Z) : Stmt (list string) :=
  fun t =>
    if limit <? 0 then (Throw "LIMIT must not be negative", t)
    else
      (Ret (take (Z.to_nat limit)
              (List.map file_id
                 (FileQueries.order_by_desc file_updated_at
                    (List.filter is_accessible
                       (List.map snd (map_to_list (files t))))))),
       t).

Record BatchReport := mkBatch {
  total : Z;
  verified : Z;
  failed : Z;
  errors : list (string * option string)
}.

(** The loop over the selected files. *)
Fixpoint verify_each (ids : list string) (verified failed : Z)
    (errors : list (string * option string))
    : M (Z * Z * list (string * option string)) :=
  match ids with
  | [] => ret (verified, failed, errors)
  | fileId :: rest =>
      verification <- FixityService.verifyFile fileId ;;
      if FixityService.isValid verification
      then verify_each rest (verified + 1) failed errors
      else verify_each rest verified (failed + 1)
             (errors ++ [(fileId, FixityService.error verification)])
  end.

(** [limit || 100] *)
Definition limit_or_100 (limit : option Z) : Z :=
  match limit with
  | Some n => if n =? 0 then 100 else n
  | None => 100
  end.

Definition verifyAllFiles (limit : option Z) : M BatchReport :=
  try_catch
    (result <- query (select_accessible (limit_or_100 limit)) ;;
     counts <- verify_each result 0 0 [] ;;
     let '(verified, failed, errors) := counts in
     ret (mkBatch (Z.of_nat (length result)) verified failed errors))
    (fun err => throw err).

End FixityBatch.


(* ===================================================================== *)
(** ** The encryption service: objects *)
(* ===================================================================== *)

Module ObjectEncryption.
Import EncryptionService.

Section Platform.

Variable gcm_encrypt : list byte -> list byte -> list byte -> option (list byte * list byte).

(** [JSON.stringify] *)
Variable JSON_stringify : JsValue -> string.

(** [encryptObject]; [ivs] is what the successive calls of
    [crypto.randomBytes(16)] return.  An error of [encrypt] is not
    caught. *)
Fixpoint encryptObject (svc : Service) (ivs : list (list byte))
    (encrypted : gmap string JsValue) (fieldsToEncrypt : list string)
    : outcome (gmap string JsValue) * Service :=
  match fieldsToEncrypt with
  | [] => (Ret encrypted, svc)
  | fieldKey :: rest =>
      match encrypted !! fieldKey with
      | None | Some JNull | Some JUndefined => encryptObject svc ivs encrypted rest
      | Some value =>
          let plaintext :=
            match value with
            | JString s => s
            | _ => JSON_stringify value
            end in
          match encrypt gcm_encrypt svc (hd [] ivs) plaintext with
          | (Ret payload, svc') =>
              encryptObject svc' (tl ivs) (<[fieldKey := JString payload]> encrypted) rest
          | (Throw e, svc') => (Throw e, svc')
          end
      end
  end.

End Platform.

End ObjectEncryption.


(* ===================================================================== *)
(** ** middleware/rateLimiter.ts *)
(* ===================================================================== *)

Module RateLimiter.

Record Entry := mkEntry {
  count : Z;
  resetTime : Z
}.

Record Limiter := mkLimiter {
  store : gmap string Entry;
  windowMs : Z;
  maxRequests : Z
}.

Definition with_store (s : gmap string Entry) (l : Limiter) : Limiter :=
  mkLimiter s (windowMs l) (maxRequests l).

(** The store is a plain object: for these identifiers
    [this.store[identifier]] is a member inherited from
    [Object.prototype], which is truthy and has no [resetTime]. *)
Definition inherited (identifier : string) : bool :=
  existsb (String.eqb identifier)
    [ "__proto__"; "constructor"; "hasOwnProperty"; "isPrototypeOf";
      "propertyIsEnumerable"; "toLocaleString"; "toString"; "valueOf";
      "__defineGetter__"; "__defineSetter__"; "__lookupGetter__";
      "__lookupSetter__" ].

Definition isLimited (now : Z) (identifier : string) (l : Limiter)
    : bool * Limiter :=
  let reset :=
    (false, with_store (<[identifier := mkEntry 1 (now + windowMs l)]> (store l)) l) in
  match store l !! identifier with
  | Some record =>
      if resetTime record <? now then reset
      else
        (count record + 1 >? maxRequests l,
         with_store
           (<[identifier := mkEntry (count record + 1) (resetTime record)]> (store l)) l)
  | None =>
      (* an inherited member: [undefined < now] is false, the count
         becomes NaN and [NaN > maxRequests] is false *)
      if inherited identifier then (false, l) else reset
  end.

(** [getRemaining]; nothing stands for NaN. *)
Definition getRemaining (now : Z) (identifier : string) (l : Limiter) : option Z :=
  match store l !! identifier with
  | Some record =>
      if resetTime record <? now then Some (maxRequests l)
      else Some (Z.max 0 (maxRequests l - count record))
  | None => if inherited identifier then None else Some (maxRequests l)
  end.

(** [cleanup]: the entries whose window is over are deleted. *)
Definition cleanup (now : Z) (l : Limiter) : Limiter :=
  with_store
    (filter (fun kv : string * Entry => now <= resetTime (snd kv)) (store l)) l.

(** The answers to successive calls of one client at the given
    instants. *)
Fixpoint requests (identifier : string) (instants : list Z) (l : Limiter)
    : list bool * Limiter :=
  match instants with
  | [] => ([], l)
  | now :: later =>
      let (limited, l1) := isLimited now identifier l in
      let (answers, l2) := requests identifier later l1 in
      (limited :: answers, l2)
  end.

(** The answer to the [i]-th request of a window (counting from 0):
    the first is always let through, the others as long as their
    number stays within the maximum. *)
Definition over_limit (maxRequests : Z) (i : nat) : bool :=
  match i with
  | O => false
  | S _ => Z.of_nat i + 1 >? maxRequests
  end.

End RateLimiter.


(* ===================================================================== *)
(** ** utils/fileStorage.ts: [FileStorageUtil] *)
(* ===================================================================== *)

Module FileStorageUtil.

(** A name as the sequence of its UTF-16 code units. *)
Definition Name := list N.

(** The class [a-zA-Z0-9._-]. *)
Definition safe (c : N) : bool :=
  ((97 <=? c) && (c <=? 122) || (65 <=? c) && (c <=? 90) ||
   (48 <=? c) && (c <=? 57) || (c =? 46) || (c =? 95) || (c =? 45))%N.

(** [originalName.replace(/[^a-zA-Z0-9._-]/g, '_').slice(0, 255)] *)
Definition getSafeFilename (originalName : Name) : Name :=
  take 255 (List.map (fun c => if safe c then c else 95%N) originalName).

End FileStorageUtil.


(* ===================================================================== *)
(** ** middleware/auth.ts and the fixity route of routes/api.ts *)
(* ===================================================================== *)

Module Routes.
Import Db.

Record JWTPayload := mkPayload {
  userId : string;
  jwt_username : string;
  role : string
}.

Record Request := mkRequest {
  authorization : option string;   (* req.headers.authorization *)
  user : option JWTPayload;        (* req.user *)
  params_id : string               (* req.params.id *)
}.

(** The response: the status set by [res.status], and the status and
    [success] flag of the body that went out, once one has. *)
Record Response := mkResponse {
  statusCode : Z;
  sent : option (Z * bool)
}.

Definition fresh : Response := mkResponse 200 None.

Definition status (code : Z) (res : Response) : Response :=
  mkResponse code (sent res).

(** [res.json(body)]: a second response cannot be sent. *)
Definition json (success : bool) (res : Response) : outcome unit * Response :=
  match sent res with
  | Some _ => (Throw "Cannot set headers after they are sent to the client", res)
  | None => (Ret tt, mkResponse (statusCode res) (Some (statusCode res, success)))
  end.

(** What a middleware or handler leaves: the world, the response, and
    the error it threw, if any. *)
Definition Exchange : Type := outcome unit * (World * Response).

Definition Next : Type := Request -> World * Response -> Exchange.

Section WithTokens.

(** [AuthService.verifyToken]: the payload of a token that verifies. *)
Variable verifyToken : string -> option JWTPayload.

Definition authenticate (req : Request) (next : Next)
    (x : World * Response) : Exchange :=
  let (w, res) := x in
  let authHeader := default "" (authorization req) in
  if String.eqb authHeader "" || negb (String.prefix "Bearer " authHeader)
  then let (o, res') := json false (status 401 res) in (o, (w, res'))
  else
    let token := EncryptionService.substring_from 7 authHeader in
    match verifyToken token with
    | Some payload =>
        next (mkRequest (authorization req) (Some payload) (params_id req)) (w, res)
    | None => let (o, res') := json false (status 401 res) in (o, (w, res'))
    end.

Definition authorize (allowedRoles : list string) (req : Request) (next : Next)
    (x : World * Response) : Exchange :=
  let (w, res) := x in
  match user req with
  | None => let (o, res') := json false (status 401 res) in (o, (w, res'))
  | Some u =>
      if negb (existsb (String.eqb (role u)) allowedRoles)
      then
        match json false (status 403 res) with
        | (Ret _, res') => next req (w, res')
        | (Throw e, res') => (Throw e, (w, res'))
        end
      else next req (w, res)
  end.

(** The handler of POST /api/files/:id/fixity/verify. *)
Definition verify_handler (req : Request) (x : World * Response) : Exchange :=
  let (w, res) := x in
  let (verification, w') := FixityService.verifyFile (params_id req) w in
  let attempt :=
    match verification with
    | Ret v => json (FixityService.isValid v) res
    | Throw e => (Throw e, res)
    end in
  match attempt with
  | (Ret _, res') => (Ret tt, (w', res'))
  | (Throw _, res') =>
      let (o, res'') := json false (status 500 res') in (o, (w', res''))
  end.

(** router.post('/api/files/:id/fixity/verify', authenticate,
    authorize(['curator', 'admin']), handler) *)
Definition post_fixity_verify (req : Request) (w : World) : Exchange :=
  authenticate req
    (fun req1 => authorize ["curator"; "admin"] req1 verify_handler)
    (w, fresh).

End WithTokens.

End Routes.


(* ===================================================================== *)
(** ** The ledger as an append-only list *)
(* ===================================================================== *)

Module Ledger.
Import Db.

(** The ledger of [t'] is that of [t], possibly with entries added at
    the end. *)
Definition grows (t t' : Tables) : Prop :=
  audit_log t `prefix_of` audit_log t'.

Definition stmt_grows {A} (s : Stmt A) : Prop :=
  forall t, grows t (snd (s t)).

(** Every write buffered by the open transaction only adds to the
    ledger. *)
Definition writes_grow (w : World) : Prop :=
  match tx w with
  | Some log => Forall (fun write => forall t, grows t (write t)) log
  | None => True
  end.

(** A computation that, from any world, leaves the committed ledger
    extended and buffers only writes that extend it. *)
Definition append_only {A} (m : M A) : Prop :=
  forall w, writes_grow w ->
    writes_grow (snd (m w)) /\ grows (db w) (db (snd (m w))).

End Ledger.


(* ===================================================================== *)
(** ** Further scenarios *)
(* ===================================================================== *)

Module Cases.
Import Db Scenarios.

(** "alice" after five failures, the last at instant 5000. *)
Definition locked_alice : UserRow :=
  mkUser "u-1" "alice" 5 (Some (5000 + AccountLockoutService.LOCKOUT_DURATION_MS))
    (Some AccountLockoutService.lockout_message).

Definition locked_world (now : Z) : World :=
  mkWorld (mkTables [locked_alice] ∅ [] ∅ ∅ []) None [] now [] ∅.

(** BEGIN and the UPDATE run, COMMIT raises. *)
Definition commit_down_world : World :=
  with_faults [false; false; true] live_world.

End Cases.


(* ===================================================================== *)
(** * Properties *)
(* ===================================================================== *)

Import Scenarios.

(** ** The store *)

Section StoreFacts.
Import Db.



Lemma query_fault {A} (s : Stmt A) (w : World) (fs : list bool) :
  faults w = true :: fs -> query s w = (Throw store_error, with_faults fs w).
Proof. intros Hf. unfold query, next_fault. rewrite Hf. reflexivity. Qed.

End StoreFacts.

(** Runs the plumbing of a computation on a world whose components are
    known, as far as the next table lookup. *)
Ltac db_red :=
  cbv beta iota zeta delta
    [Db.bind Db.ret Db.throw Db.try_catch Db.query Db.client_query
     Db.next_fault Db.Date_now Db.randomUUID Db.fs_stat Db.withTransaction
     Db.BEGIN Db.COMMIT Db.ROLLBACK Db.replay
     Db.with_db Db.with_tx Db.with_faults Db.with_uuids Db.with_clock
     Db.db Db.tx Db.faults Db.clock Db.uuids Db.disk].

(** ** Account lockout *)

Section LockoutFacts.
Import Db AccountLockoutService.
Local Open Scope db_scope.













End LockoutFacts.

Section LockoutThreshold.
Import Db AccountLockoutService.


End LockoutThreshold.


Section LockoutFailsOpen.
Import Db AccountLockoutService.

Lemma consumed_prefix (w w' : World) (pre : list bool) :
  faults w = pre ++ faults w' -> consumed w w' = pre.
Proof.
  intros E. unfold consumed. rewrite E, length_app.
  replace (length pre + length (faults w') - length (faults w'))%nat
    with (length pre) by lia.
  apply take_app_length.
Qed.

Ltac consumed_is pre :=
  rewrite (consumed_prefix _ _ pre) by reflexivity.

(** C9. Whatever the store does, [isAccountLocked] resolves (it never
    rejects), and whenever one of its statements raised it resolves to
    false: the check fails open.  [recordFailedAttempt] resolves as
    well, whatever the store does. *)
Theorem lockout_fails_open (name : string) (w : World) :
  (exists b w',
     isAccountLocked name w = (Ret b, w') /\
     (In true (consumed w w') -> b = false)) /\
  (exists w', recordFailedAttempt name w = (Ret tt, w')).
Proof.
  destruct w as [t x fs c us d]. split.
  - unfold isAccountLocked, try_catch, bind, query, next_fault, select_users, Date_now.
    simpl. destruct fs as [|[] fs]; simpl.
    + destruct (List.filter (by_username name) (users t)) as [|r rs]; simpl.
      { eexists _, _. split; [reflexivity|]. unfold consumed. simpl. tauto. }
      destruct (locked_until r) as [u|]; simpl.
      * destruct (c <? u); simpl; eexists _, _; (split; [reflexivity|]);
          unfold consumed; simpl; tauto.
      * eexists _, _. split; [reflexivity|]. unfold consumed. simpl. tauto.
    + eexists _, _. split; [reflexivity|]. reflexivity.
    + destruct (List.filter (by_username name) (users t)) as [|r rs]; simpl.
      { eexists _, _. split; [reflexivity|]. reflexivity. }
      destruct (locked_until r) as [u|]; simpl.
      * destruct (c <? u); simpl.
        { eexists _, _. split; [reflexivity|]. consumed_is [false].
          simpl. intros [|[]]. discriminate. }
        destruct fs as [|[] fs]; simpl; eexists _, _; (split; [reflexivity|]);
          reflexivity.
      * eexists _, _. split; [reflexivity|]. reflexivity.
  - unfold recordFailedAttempt, try_catch, bind, query, next_fault, select_users, Date_now.
    repeat (simpl; case_match); simplify_eq;
      repeat match goal with a : unit |- _ => destruct a end;
      eexists; reflexivity.
Qed.

Lemma lockout_fails_open_witness :
  fst (isAccountLocked "alice" store_down_world) = Ret false.
Proof.
  destruct (proj1 (lockout_fails_open "alice" store_down_world))
    as (b & w' & Hrun & Hopen).
  rewrite Hrun. cbn [fst]. f_equal. apply Hopen.
  vm_compute in Hrun. injection Hrun as _ <-. left. reflexivity.
Defined.

End LockoutFailsOpen.

(** ** Preservation metadata *)

Section FixityTrace.
Import Db MetadataService.

(** C5. On a file with a preservation record, [validateFixity] answers
    whether the digest it is given is the stored one, and in both
    cases the event list of the record grows by exactly one event, of
    type validation, whose detail names the outcome and both digests. *)
Theorem validateFixity_leaves_trace
    (w : World) (fileId currentDigest : string)
    (row : PremisRow) (json : PremisMetadata) :
  faults w = [] ->
  metadata_premis (db w) !! fileId = Some row ->
  premis_json row = Some json ->
  exists (answer : bool) (w' : World) (row' : PremisRow)
         (json' : PremisMetadata) (e : PremisEvent),
    validateFixity fileId currentDigest w = (Ret answer, w') /\
    (answer = true <-> currentDigest = message_digest row) /\
    metadata_premis (db w') !! fileId = Some row' /\
    message_digest row' = message_digest row /\
    premis_json row' = Some json' /\
    events json' = events json ++ [e] /\
    eventType e = validation /\
    eventDetail e =
      "Fixity check " +:+ (if answer then "passed" else "FAILED") +:+
      " - stored: " +:+ message_digest row +:+ ", current: " +:+ currentDigest.
Proof.
  intros Hf Hrow Hjson.
  destruct w as [t x fs c us d]. simpl in Hf, Hrow. subst fs.
  exists (String.eqb (message_digest row) currentDigest).
  unfold validateFixity, recordPremisEvent, select_premis, update_premis_json.
  db_red. rewrite Hrow. db_red. rewrite Hrow. db_red. rewrite Hjson.
  assert (Hafter : forall e,
    metadata_premis
      (set_premis (alter (set_premis_json (push_event e json) c) fileId) t) !! fileId
    = Some (set_premis_json (push_event e json) c row)).
  { intros e. unfold set_premis. simpl. rewrite lookup_alter_eq, Hrow. reflexivity. }
  destruct us as [|u us]; db_red;
    (do 4 eexists; split; [reflexivity|]; split;
      [ rewrite String.eqb_eq; split; congruence
      | split; [ apply Hafter | ]; simpl; repeat split ]).
Qed.

Lemma validateFixity_leaves_trace_witness :
  exists (answer : bool) (w' : World) (row' : PremisRow)
         (json' : PremisMetadata) (e : PremisEvent),
    validateFixity "f-1" "def456" premis_world = (Ret answer, w') /\
    (answer = true <-> "def456" = message_digest sample_premis_row) /\
    metadata_premis (db w') !! "f-1" = Some row' /\
    message_digest row' = message_digest sample_premis_row /\
    premis_json row' = Some json' /\
    events json' = events sample_premis ++ [e] /\
    eventType e = validation /\
    eventDetail e =
      "Fixity check " +:+ (if answer then "passed" else "FAILED") +:+
      " - stored: " +:+ message_digest sample_premis_row +:+ ", current: " +:+ "def456".
Proof.
  apply (validateFixity_leaves_trace premis_world "f-1" "def456"
           sample_premis_row sample_premis); reflexivity.
Defined.

End FixityTrace.

(** ** Descriptive metadata *)

Section DescriptiveUpdate.
Import Db MetadataService.

(** What [updateDublinCoreMetadata] does to an existing record: eight
    columns are coalesced with the update, [format], [source] and the
    identifier keep their value, and the stored export becomes the
    serialization of the update alone. *)
Lemma updateDublinCoreMetadata_effect
    (buildObject : DublinCore -> string) (w : World) (fileId : string)
    (updates : DublinCore) (row : DcRow) :
  faults w = [] ->
  metadata_dublin_core (db w) !! fileId = Some row ->
  exists w',
    updateDublinCoreMetadata buildObject fileId updates w = (Ret updates, w') /\
    metadata_dublin_core (db w') !! fileId =
      Some (coalesce_row updates (buildObject updates) (clock w) row) /\
    forall other, other <> fileId ->
      metadata_dublin_core (db w') !! other = metadata_dublin_core (db w) !! other.
Proof.
  intros Hf Hrow. destruct w as [t x fs c us d]. simpl in Hf, Hrow. subst fs.
  unfold updateDublinCoreMetadata, select_dc_xml, update_dublin_core, buildDublinCoreXML.
  db_red. rewrite Hrow. db_red.
  eexists. split; [reflexivity|]. unfold set_dublin_core. simpl. split.
  - rewrite lookup_alter_eq, Hrow. reflexivity.
  - intros other Hne. apply lookup_alter_ne. congruence.
Qed.

(** C6, what the code does.  On every existing record and for every
    partial update: the eight coalesced columns take the supplied
    value and keep their own where none is supplied, but [format] and
    [source] keep their value even when one is supplied, and the
    stored export is replaced by the serialization of the update
    alone, whatever it was and whatever the rest of the record is. *)
Theorem updateDublinCoreMetadata_replaces_export
    (buildObject : DublinCore -> string) (w : World) (fileId : string)
    (updates : DublinCore) (row : DcRow) :
  faults w = [] ->
  metadata_dublin_core (db w) !! fileId = Some row ->
  exists w' row',
    updateDublinCoreMetadata buildObject fileId updates w = (Ret updates, w') /\
    metadata_dublin_core (db w') !! fileId = Some row' /\
    dc_xml row' = buildObject updates /\
    format row' = format row /\
    source row' = source row /\
    identifier row' = identifier row /\
    title row' = COALESCE (dc_title updates) (title row) /\
    creator row' = COALESCE (dc_creator updates) (creator row) /\
    subject row' = COALESCE (dc_subject updates) (subject row) /\
    dcr_description row' = COALESCE (dc_description updates) (dcr_description row) /\
    publisher row' = COALESCE (dc_publisher updates) (publisher row) /\
    type row' = COALESCE (dc_type updates) (type row) /\
    language row' = COALESCE (dc_language updates) (language row) /\
    rights row' = COALESCE (dc_rights updates) (rights row).
Proof.
  intros Hf Hrow.
  destruct (updateDublinCoreMetadata_effect buildObject w fileId updates row Hf Hrow)
    as (w' & Hrun & Hrow' & _).
  exists w', (coalesce_row updates (buildObject updates) (clock w) row).
  split; [exact Hrun|]. split; [exact Hrow'|]. cbn. repeat split.
Qed.

Lemma updateDublinCoreMetadata_replaces_export_witness :
  exists w' row',
    updateDublinCoreMetadata title_only "f-1" retitle
      (catalogue_world "<dc:title>Annual report</dc:title><dc:creator>Ada</dc:creator>")
      = (Ret retitle, w') /\
    metadata_dublin_core (db w') !! "f-1" = Some row' /\
    dc_xml row' = "<dc:title>Annual report 2024</dc:title>" /\
    format row' = Some "text/plain" /\
    source row' = None /\
    identifier row' = "f-1" /\
    title row' = Some "Annual report 2024" /\
    creator row' = Some "Ada" /\
    subject row' = None /\
    dcr_description row' = None /\
    publisher row' = None /\
    type row' = Some "document" /\
    language row' = Some "pl" /\
    rights row' = Some "Copyright".
Proof.
  apply (updateDublinCoreMetadata_replaces_export title_only
           (catalogue_world "<dc:title>Annual report</dc:title><dc:creator>Ada</dc:creator>")
           "f-1" retitle
           (catalogued_row "<dc:title>Annual report</dc:title><dc:creator>Ada</dc:creator>"));
    reflexivity.
Defined.

End DescriptiveUpdate.

(** ** Soft delete *)

Section SoftDelete.
Import Db FileService.

Ltac files_red :=
  repeat (progress (db_red;
                    cbv beta iota zeta delta
                      [update_file select_file AuditService.logAction
                       AuditService.insert_audit
                       MetadataService.getFileWithMetadata
                       MetadataService.select_file_with_metadata];
                    cbn [files set_files set_audit_log audit_log users file_versions
                         metadata_dublin_core metadata_premis])).

(** [deleteFile] on a quiet store: the row stays, flagged. *)
Lemma deleteFile_effect (w : World) (fileId deletedBy : string)
    (why : option string) (f : FileRow) :
  faults w = [] ->
  files (db w) !! fileId = Some f ->
  exists w1,
    deleteFile fileId deletedBy why w = (Ret tt, w1) /\
    faults w1 = [] /\
    files (db w1) !! fileId = Some (soft_delete (clock w) f).
Proof.
  intros Hf Hrow. destruct w as [t x fs c us d]. simpl in Hf, Hrow. subst fs.
  unfold deleteFile. files_red. rewrite Hrow. files_red. rewrite Hrow. files_red.
  eexists. split; [reflexivity|]. split; [reflexivity|].
  cbn. apply lookup_insert_eq.
Qed.

Lemma restoreFile_effect (w : World) (fileId : string) (f : FileRow) :
  faults w = [] ->
  files (db w) !! fileId = Some f ->
  exists w2,
    restoreFile fileId w = (Ret tt, w2) /\
    faults w2 = [] /\
    files (db w2) !! fileId = Some (undelete (clock w) f).
Proof.
  intros Hf Hrow. destruct w as [t x fs c us d]. simpl in Hf, Hrow. subst fs.
  unfold restoreFile. files_red. rewrite Hrow. files_red. rewrite Hrow. files_red.
  eexists. split; [reflexivity|]. split; [reflexivity|].
  cbn. apply lookup_insert_eq.
Qed.

Lemma getFile_found (w : World) (fileId : string) (f : FileRow) :
  faults w = [] ->
  files (db w) !! fileId = Some f ->
  exists view, fst (getFile fileId None w) = Ret (Some view) /\
               MetadataService.af_id view = file_id f.
Proof.
  intros Hf Hrow. destruct w as [t x fs c us d]. simpl in Hf, Hrow. subst fs.
  unfold getFile. files_red. rewrite Hrow. files_red.
  eexists. split; reflexivity.
Qed.

(** C7 as amended.  For a registered file that is accessible and not
    deleted, [deleteFile] followed by [restoreFile] leaves both flags
    as they were, and the row can be read by id after the delete and
    after the restore. *)
Theorem soft_delete_reversible
    (w : World) (fileId deletedBy : string) (why : option string) (f : FileRow) :
  faults w = [] ->
  files (db w) !! fileId = Some f ->
  is_accessible f = true ->
  is_deleted f = false ->
  exists w1 w2,
    deleteFile fileId deletedBy why w = (Ret tt, w1) /\
    restoreFile fileId w1 = (Ret tt, w2) /\
    flags w1 fileId = Some (false, true) /\
    flags w2 fileId = flags w fileId /\
    (exists view, fst (getFile fileId None w1) = Ret (Some view)) /\
    (exists view, fst (getFile fileId None w2) = Ret (Some view)).
Proof.
  intros Hf Hrow Hacc Hdel.
  destruct (deleteFile_effect w fileId deletedBy why f Hf Hrow) as (w1 & Hrun1 & Hf1 & Hrow1).
  destruct (restoreFile_effect w1 fileId _ Hf1 Hrow1) as (w2 & Hrun2 & Hf2 & Hrow2).
  exists w1, w2. repeat split; try assumption.
  - unfold flags. rewrite Hrow1. reflexivity.
  - unfold flags. rewrite Hrow2, Hrow. simpl. rewrite Hacc, Hdel. reflexivity.
  - destruct (getFile_found w1 fileId _ Hf1 Hrow1) as (v & Hv & _). eauto.
  - destruct (getFile_found w2 fileId _ Hf2 Hrow2) as (v & Hv & _). eauto.
Qed.

Lemma soft_delete_reversible_witness :
  exists w1 w2,
    deleteFile "f-1" "u-1" None live_world = (Ret tt, w1) /\
    restoreFile "f-1" w1 = (Ret tt, w2) /\
    flags w1 "f-1" = Some (false, true) /\
    flags w2 "f-1" = flags live_world "f-1" /\
    (exists view, fst (getFile "f-1" None w1) = Ret (Some view)) /\
    (exists view, fst (getFile "f-1" None w2) = Ret (Some view)).
Proof.
  apply (soft_delete_reversible live_world "f-1" "u-1" None report_file);
    reflexivity.
Defined.

(** C7 as stated fails on a file that is already soft-deleted: before
    the delete its flags are (inaccessible, deleted), after the delete
    and the restore they are (accessible, not deleted). *)
Lemma restore_does_not_recall_flags :
  flags archived_world "f-1" = Some (false, true) /\
  flags (snd (restoreFile "f-1" (snd (deleteFile "f-1" "u-1" None archived_world)))) "f-1"
    = Some (true, false) /\
  flags (snd (restoreFile "f-1" (snd (deleteFile "f-1" "u-1" None archived_world)))) "f-1"
    <> flags archived_world "f-1".
Proof.
  assert (H1 : flags archived_world "f-1" = Some (false, true)) by (vm_compute; reflexivity).
  assert (H2 : flags (snd (restoreFile "f-1"
                        (snd (deleteFile "f-1" "u-1" None archived_world)))) "f-1"
               = Some (true, false)) by (vm_compute; reflexivity).
  split; [exact H1|]. split; [exact H2|]. rewrite H1, H2. discriminate.
Qed.

End SoftDelete.

(** ** Registration *)

Section Registration.
Import Db FileService.

(** On a store that raises nothing the four writes are all there. *)
Example registerFile_all_four (buildObject : DublinCore -> string) :
  let r := registerFile buildObject "/srv/inbox/report.txt" "abc123" "text/plain"
             "u-1" None quiet_world in
  is_ret (fst r) = true /\
  (exists row, files (db (snd r)) !! "f-1" = Some row) /\
  (exists row, metadata_dublin_core (db (snd r)) !! "f-1" = Some row) /\
  (exists row, metadata_premis (db (snd r)) !! "f-1" = Some row) /\
  List.map (fun a => (a_user_id a, action a, resource_id a)) (audit_log (db (snd r)))
    = [(Some "u-1", CREATE, "f-1"); (None, CREATE, "f-1")].
Proof.
  vm_compute. repeat split; eexists; reflexivity.
Qed.




End Registration.

(** ** Versions *)

Section Versions.
Import Db FileService.





End Versions.

Section ConcurrentVersions.
Import FileService.













End ConcurrentVersions.

Section VersionMonotonicity.
Import Db FileService.



(** Two calls that race: both read version 1; the second INSERT waits
    for the first transaction and, once that has committed, raises on
    the unique key.  One version is committed, the other call fails. *)
Example racing_calls :
  run [Select 0; Select 1; Insert 0; Insert 1; Update 0; Commit 0; Insert 1]%nat
      (initial 2)
  = mkShared 2 [2] [Committed 2; RolledBack].
Proof. reflexivity. Qed.

(** Three calls one after the other, in the interleaving model: the
    numbers of the sequential run. *)
Example calls_in_turn :
  run [Select 0; Insert 0; Update 0; Commit 0;
       Select 1; Insert 1; Update 1; Commit 1;
       Select 2; Insert 2; Update 2; Commit 2]%nat
      (initial 3)
  = mkShared 4 [2; 3; 4] [Committed 2; Committed 3; Committed 4].
Proof. reflexivity. Qed.

End VersionMonotonicity.

(** ** Fixity reports *)

Section FixityReport.
Import Db FixityService.







Example tampered_file_reported_valid :
  let checked := verifyFile "f-1" tampered_world in
  fst checked = Ret (mkVerification "f-1" false None) /\
  List.map (fun a => (action a, resource_id a, error_message a, details a))
    (audit_log (db (snd checked)))
    = [(VALIDATE, "f-1",
        Some "Fixity check failed - stored: abc123, current: def456", None)] /\
  match fst (getFixityReport "f-1" (snd checked)) with
  | Ret r => status r = valid
  | Throw _ => False
  end.
Proof. vm_compute. repeat split. Qed.

End FixityReport.

(** ** Encryption *)

Section HexFraming.
Import EncryptionService.







End HexFraming.

Section EncryptionRoundTrip.
Import EncryptionService.

Variable gcm_encrypt : list byte -> list byte -> list byte -> option (list byte * list byte).
Variable gcm_decrypt : list byte -> list byte -> list byte -> list byte -> option (list byte).

(** What the service relies on from AES-256-GCM: with a 32-byte key and
    a 16-byte nonce encryption goes through and yields a 16-byte tag;
    what was encrypted decrypts to the same bytes under the same key,
    nonce and tag; and a change of one byte anywhere in nonce, tag or
    ciphertext makes the tag fail to verify. *)
Hypothesis gcm_runs : forall key iv pt,
  length key = 32%nat -> length iv = 16%nat -> is_Some (gcm_encrypt key iv pt).
Hypothesis gcm_opens : forall key iv pt ct tag,
  gcm_encrypt key iv pt = Some (ct, tag) ->
  length tag = 16%nat /\ gcm_decrypt key iv tag ct = Some pt.
Hypothesis gcm_detects : forall key iv pt ct tag (i : nat) (b : byte),
  gcm_encrypt key iv pt = Some (ct, tag) ->
  length iv = 16%nat ->
  (i < length (iv ++ tag ++ ct))%nat ->
  (iv ++ tag ++ ct) !! i <> Some b ->
  gcm_decrypt key
    (take 16 (<[i := b]> (iv ++ tag ++ ct)))
    (take 16 (drop 16 (<[i := b]> (iv ++ tag ++ ct))))
    (drop 32 (<[i := b]> (iv ++ tag ++ ct))) = None.




End EncryptionRoundTrip.

Section ChecksumCipherFacts.
Import EncryptionService ChecksumCipher.













End ChecksumCipherFacts.

Section DecryptObject.
Import EncryptionService.

Variable gcm_decrypt : list byte -> list byte -> list byte -> list byte -> option (list byte).
Variable JSON_parse : string -> option JsValue.

Local Abbreviation decrypt := (decrypt gcm_decrypt).
Local Abbreviation decrypt_field := (decrypt_field gcm_decrypt JSON_parse).
Local Abbreviation decryptObject := (decryptObject gcm_decrypt JSON_parse).
Local Abbreviation undecryptable := (undecryptable gcm_decrypt).

(** Loading the key happens once. *)
Lemma getKey_settles (svc : Service) :
  snd (getKey (snd (getKey svc))) = snd (getKey svc).
Proof.
  destruct svc as [env [key|]]; unfold getKey, initialize; simpl; [reflexivity|].
  destruct env as [keyHex|]; simpl; [|reflexivity].
  destruct (String.eqb keyHex "" || String.eqb keyHex placeholder_key) eqn:E;
    simpl; [rewrite E; reflexivity|].
  destruct (length (from_hex keyHex) =? 32)%nat; reflexivity.
Qed.

Lemma decrypt_state (svc : Service) (ciphertext : string) :
  snd (decrypt svc ciphertext) = snd (getKey svc).
Proof.
  unfold EncryptionService.decrypt.
  destruct (getKey svc) as [[key|e] svc']; simpl; [|reflexivity].
  destruct (gcm_decrypt _ _ _ _); reflexivity.
Qed.

Lemma decrypt_field_keeps (svc s : Service) (m : gmap string JsValue) (f k : string) :
  state_of svc s ->
  undecryptable svc (m !! k) \/ f <> k ->
  fst (decrypt_field (m, s) f) !! k = m !! k /\
  state_of svc (snd (decrypt_field (m, s) f)).
Proof.
  intros Hs Hk. unfold EncryptionService.decrypt_field.
  destruct (m !! f) as [[| | | |value|]|] eqn:Hf; try (split; [reflexivity | exact Hs]).
  assert (Hstate : state_of svc (snd (decrypt s value))).
  { rewrite decrypt_state. right. destruct Hs as [->| ->]; [reflexivity|apply getKey_settles]. }
  destruct (decrypt s value) as [[text|e] s'] eqn:Hdec; simpl in Hstate.
  - assert (Hne : f <> k).
    { destruct Hk as [Hk|]; [|assumption]. intros ->. rewrite Hf in Hk.
      destruct Hk as [H1 H2]. destruct Hs as [->| ->].
      - rewrite Hdec in H1. discriminate.
      - rewrite Hdec in H2. discriminate. }
    destruct (JSON_parse text); simpl; (split; [now apply lookup_insert_ne | exact Hstate]).
  - simpl. split; [|exact Hstate].
    destruct (decide (f = k)) as [->|Hne]; [|now apply lookup_insert_ne].
    rewrite lookup_insert_eq. symmetry. exact Hf.
Qed.

Lemma decryptObject_keeps (svc : Service) (k : string) (fields : list string) :
  forall (m : gmap string JsValue) (s : Service),
  state_of svc s ->
  undecryptable svc (m !! k) \/ k ∉ fields ->
  fst (fold_left decrypt_field fields (m, s)) !! k = m !! k.
Proof.
  induction fields as [|f fields IH]; intros m s Hs Hk; [reflexivity|].
  cbn [fold_left].
  destruct (decrypt_field_keeps svc s m f k Hs) as [Hsame Hs'].
  { destruct Hk as [Hk|Hk]; [now left|]. right. intros ->. apply Hk. now left. }
  destruct (decrypt_field (m, s) f) as [m' s'] eqn:Hstep. simpl in Hsame, Hs'.
  rewrite <- Hsame. apply IH; [exact Hs'|].
  rewrite Hsame. destruct Hk as [Hk|Hk]; [now left|]. right.
  intros Hin. apply Hk. now right.
Qed.

(** C10. [decryptObject] is a function into objects: nothing it meets
    makes it raise.  At each field it meets, a string whose decryption
    raises stays as it is and the loop goes on with the state it has; a
    missing, null or undefined field is passed over.  Over the whole
    list, a field that is missing, null or undefined in the object is
    so in the result, and a field holding a string that does not
    decrypt holds the same string in the result, whatever else is in
    the list. *)
Theorem decryptObject_tolerant
    (svc : Service) (obj : gmap string JsValue) (fields : list string) :
  (forall (decrypted : gmap string JsValue) (s : Service) (fieldKey value : string),
     decrypted !! fieldKey = Some (JString value) ->
     is_ret (fst (decrypt s value)) = false ->
     decrypt_field (decrypted, s) fieldKey = (decrypted, snd (decrypt s value))) /\
  (forall (decrypted : gmap string JsValue) (s : Service) (fieldKey : string),
     decrypted !! fieldKey = None \/ decrypted !! fieldKey = Some JNull \/
     decrypted !! fieldKey = Some JUndefined ->
     decrypt_field (decrypted, s) fieldKey = (decrypted, s)) /\
  (forall (f : string) (rest : list string),
     decryptObject svc obj (f :: rest) =
     fold_left decrypt_field rest (decrypt_field (obj, svc) f)) /\
  (forall k : string,
     (obj !! k = None \/ obj !! k = Some JNull \/ obj !! k = Some JUndefined ->
      fst (decryptObject svc obj fields) !! k = obj !! k) /\
     (forall value,
        obj !! k = Some (JString value) ->
        is_ret (fst (decrypt svc value)) = false ->
        is_ret (fst (decrypt (snd (getKey svc)) value)) = false ->
        fst (decryptObject svc obj fields) !! k = Some (JString value))).
Proof.
  split; [|split; [|split]].
  - intros decrypted s fieldKey value Hf Hfail.
    unfold EncryptionService.decrypt_field. rewrite Hf.
    destruct (decrypt s value) as [[text|e] s']; [discriminate|]. simpl.
    rewrite insert_id by exact Hf. reflexivity.
  - intros decrypted s fieldKey [H|[H|H]];
      unfold EncryptionService.decrypt_field; rewrite H; reflexivity.
  - reflexivity.
  - intros k. split.
    + intros Hk. apply (decryptObject_keeps svc); [now left|]. left.
      destruct Hk as [->|[->| ->]]; exact I.
    + intros value Hk H1 H2. rewrite <- Hk.
      apply (decryptObject_keeps svc); [now left|]. left. rewrite Hk. now split.
Qed.

End DecryptObject.

Section DecryptObjectExample.
Import EncryptionService ChecksumCipher.

Lemma decryptObject_tolerant_witness :
  fst (decryptObject checksum_decrypt not_json loaded_service contact
         ["email"; "phone"; "fax"; "name"]) !! "email"
  = Some (JString "not-a-payload").
Proof.
  refine (proj2 (proj2 (proj2 (proj2
            (decryptObject_tolerant checksum_decrypt not_json loaded_service contact
               ["email"; "phone"; "fax"; "name"]))) "email") "not-a-payload" _ _ _);
    reflexivity.
Defined.

Example decryptObject_contact :
  fst (decryptObject checksum_decrypt not_json loaded_service contact
         ["email"; "phone"; "fax"; "name"])
  = {[ "email" := JString "not-a-payload"; "phone" := JNull; "name" := JString "Ada" ]}.
Proof. vm_compute. reflexivity. Qed.

End DecryptObjectExample.
